(** * DoubleMLPQ: double machine learning for potential quantiles

    A shallow embedding of [doubleml/double_ml_pq.py].

    Conventions of the embedding.
    - A numpy float is a real number or NaN ([npfloat]); arithmetic is the
      arithmetic of [R] with NaN absorbing, comparisons with NaN are false.
      Rounding and the infinities are outside the model.
    - A one-dimensional numpy array is a [list]; an index array is a
      [list nat]; fancy indexing raises [IndexError] out of range.
    - A Python call either returns or raises: [result].  Methods that read
      or write [self] are functions from the object to a result and the
      object after the call ([meth]).
    - Learners, the resampling helpers and the root solver are collaborators
      of the class and enter through the interfaces [Learner] and [Env]. *)

From Stdlib Require Import Reals Lra Lia ZArith String.
From stdpp Require Import base decidable option list strings.

Local Open Scope string_scope.
Local Open Scope R_scope.

(** ** Python results *)

Inductive pyerr : Type :=
| TypeError (msg : string)
| ValueError (msg : string)
| IndexError (msg : string)
| NotImplementedError (msg : string)
| NotFittedError (msg : string).

Inductive result (A : Type) : Type :=
| Ok (a : A)
| Raise (e : pyerr).
Arguments Ok {A} a.
Arguments Raise {A} e.

#[global] Instance result_ret : MRet result := fun A a => Ok a.
#[global] Instance result_bind : MBind result := fun A B f m =>
  match m with
  | Ok a => f a
  | Raise e => Raise e
  end.
#[global] Instance result_fmap : FMap result := fun A B f m =>
  match m with
  | Ok a => Ok (f a)
  | Raise e => Raise e
  end.

Definition is_ok {A} (m : result A) : Prop := ∃ a, m = Ok a.

(** ** numpy floats *)

Inductive npfloat : Type :=
| NaN
| Fin (r : R).

Declare Scope npfloat_scope.
Delimit Scope npfloat_scope with fl.
Bind Scope npfloat_scope with npfloat.

Definition lift2 (f : R → R → R) (a b : npfloat) : npfloat :=
  match a, b with
  | Fin u, Fin v => Fin (f u v)
  | _, _ => NaN
  end.

Definition lift1 (f : R → R) (a : npfloat) : npfloat :=
  match a with
  | Fin u => Fin (f u)
  | NaN => NaN
  end.

Definition fadd := lift2 Rplus.
Definition fsub := lift2 Rminus.
Definition fmul := lift2 Rmult.
Definition fdiv := lift2 Rdiv.

Infix "+" := fadd : npfloat_scope.
Infix "-" := fsub : npfloat_scope.
Infix "*" := fmul : npfloat_scope.
Infix "/" := fdiv : npfloat_scope.

#[global] Instance Rle_rel_dec : RelDecision Rle := Rle_dec.
#[global] Instance Rlt_rel_dec : RelDecision Rlt := Rlt_dec.

(** [a <= b] and [a < b], [a > b] on floats: false as soon as a side is NaN. *)
Definition fle (a b : npfloat) : bool :=
  match a, b with
  | Fin u, Fin v => bool_decide (u <= v)
  | _, _ => false
  end.

Definition flt (a b : npfloat) : bool :=
  match a, b with
  | Fin u, Fin v => bool_decide (u < v)
  | _, _ => false
  end.

Definition fgt (a b : npfloat) : bool := flt b a.

(** A boolean used in arithmetic: [True] is [1.0], [False] is [0.0]. *)
Definition b2f (b : bool) : npfloat := Fin (if b then 1 else 0).

Definition is_nan (a : npfloat) : bool :=
  match a with NaN => true | Fin _ => false end.

Definition finite (a : npfloat) : Prop := ∃ r, a = Fin r.

(** ** numpy arrays *)

(** [a[inds]] with an index array. *)
Fixpoint np_take {A} (a : list A) (inds : list nat) : result (list A) :=
  match inds with
  | [] => Ok []
  | i :: rest =>
      match a !! i with
      | None => Raise (IndexError "index is out of bounds")
      | Some v => vs ← np_take a rest; Ok (v :: vs)
      end
  end.

(** [a[mask]] with a boolean mask of the same length. *)
Definition take_mask {A} (a : list A) (mask : list bool) : result (list A) :=
  if decide (length a = length mask)
  then Ok (omap (λ p : A * bool, if p.2 then Some p.1 else None) (zip a mask))
  else Raise (IndexError "boolean index did not match indexed array").

(** An elementwise binary operation on two one-dimensional arrays, with
    numpy's broadcasting of an array of length one. *)
Definition ew2 {A B C} (f : A → B → C) (a : list A) (b : list B)
  : result (list C) :=
  if decide (length a = length b) then Ok (zip_with f a b)
  else match a, b with
       | [u], _ => Ok (map (f u) b)
       | _, [v] => Ok (map (λ u, f u v) a)
       | _, _ => Raise (ValueError "operands could not be broadcast together")
       end.

(** [a.astype(float)] for a boolean array. *)
Definition astype_float (a : list bool) : list npfloat := map b2f a.

Definition np_sum (a : list npfloat) : npfloat := foldr fadd (Fin 0) a.

(** [a.mean()]: NaN on the empty array. *)
Definition np_mean (a : list npfloat) : npfloat :=
  match a with
  | [] => NaN
  | _ => (np_sum a / Fin (INR (length a)))%fl
  end.

(** [np.full(shape=n, fill_value=v)]. *)
Definition np_full {A} (n : nat) (v : A) : list A := replicate n v.

(** [a[inds] = vals]: every index must be in range, [vals] must have the
    length of [inds] or length one; with a repeated index the last value
    assigned stays. *)
Fixpoint assign_zip {A} (a : list A) (inds : list nat) (vals : list A)
  : result (list A) :=
  match inds, vals with
  | [], _ => Ok a
  | i :: inds', v :: vals' =>
      if decide (i < length a)%nat
      then assign_zip (<[i:=v]> a) inds' vals'
      else Raise (IndexError "index is out of bounds")
  | _ :: _, [] => Raise (ValueError "shape mismatch")
  end.

Definition assign_at {A} (a : list A) (inds : list nat) (vals : list A)
  : result (list A) :=
  if decide (length vals = length inds) then assign_zip a inds vals
  else match vals with
       | [v] => assign_zip a inds (replicate (length inds) v)
       | _ => Raise (ValueError "shape mismatch")
       end.

(** ** The score elements and the estimator object *)

Definition Row : Type := list npfloat.

Record DoubleMLData : Type := {
  x : list Row;
  y : list npfloat;
  d : list Z;
  z_cols : option (list string);
  cluster_cols : option (list string);
}.

Definition n_obs (data : DoubleMLData) : nat := length (y data).

(** The dict [{'ind_d': ..., 'g': ..., 'm': ..., 'y': ...}]. *)
Record psi_elements : Type := {
  ind_d : list bool;
  g : list npfloat;
  m : list npfloat;
  psi_y : list npfloat;
}.

(** All four arrays of the bundle have length [n]. *)
Definition bundle_of_length (n : nat) (psi : psi_elements) : Prop :=
  length (ind_d psi) = n ∧ length (g psi) = n ∧
  length (m psi) = n ∧ length (psi_y psi) = n.

Inductive trimming_rule_t : Type :=
| truncate
| other_rule (name : string).

(** The attributes of a constructed [DoubleMLPQ]; [L] is the class of the
    learner objects. *)
Record DoubleMLPQ (L : Type) : Type := {
  _dml_data : DoubleMLData;
  n_folds : nat;
  n_rep : nat;
  _quantile : R;
  _treatment : Z;
  _h : npfloat;
  _normalize : bool;
  _trimming_rule : trimming_rule_t;
  _trimming_threshold : R;
  _coef_bounds : npfloat * npfloat;
  _coef_start_val : npfloat;
  _learner_ml_g : L;
  _learner_ml_m : L;
  _smpls : list (list (list nat * list nat));
}.
Arguments _dml_data {L} _.
Arguments n_folds {L} _.
Arguments n_rep {L} _.
Arguments _quantile {L} _.
Arguments _treatment {L} _.
Arguments _h {L} _.
Arguments _normalize {L} _.
Arguments _trimming_rule {L} _.
Arguments _trimming_threshold {L} _.
Arguments _coef_bounds {L} _.
Arguments _coef_start_val {L} _.
Arguments _learner_ml_g {L} _.
Arguments _learner_ml_m {L} _.
Arguments _smpls {L} _.

(** ** The score and its derivative *)

Section Score.
Context {L : Type}.
Variable self : DoubleMLPQ L.

(** The rows the score is evaluated on: all of them, or [inds]. *)
Definition select {A} (a : list A) (inds : option (list nat))
  : result (list A) :=
  match inds with
  | None => Ok a
  | Some inds => np_take a inds
  end.

(** [y <= coef], elementwise. *)
Definition le_coef (ys : list npfloat) (coef : npfloat) : list bool :=
  map (λ yi, fle yi coef) ys.

Definition _compute_score (psi : psi_elements) (coef : npfloat)
    (inds : option (list nat)) : result (list npfloat) :=
  ind_d ← select (ind_d psi) inds;
  g ← select (g psi) inds;
  m ← select (m psi) inds;
  y ← select (psi_y psi) inds;
  t1 ← ew2 fsub (astype_float (le_coef y coef)) g;
  t2 ← ew2 fmul (astype_float ind_d) t1;
  t3 ← ew2 fdiv t2 m;
  t4 ← ew2 fadd t3 g;
  Ok (map (λ v, v - Fin (_quantile self))%fl t4).

(** [np.exp(-1. * np.power(u, 2) / 2) / np.sqrt(2 * np.pi)]. *)
Definition kernel (u : npfloat) : npfloat :=
  (lift1 exp (Fin (-1) * lift1 (λ v, v ^ 2) u / Fin 2)
   / Fin (sqrt (2 * PI)))%fl.

Definition _compute_score_deriv (psi : psi_elements) (coef : npfloat)
    (inds : option (list nat)) : result (list npfloat) :=
  ind_d ← select (ind_d psi) inds;
  m ← select (m psi) inds;
  y ← select (psi_y psi) inds;
  score_weights ← ew2 fdiv (astype_float ind_d) m;
  let normalization := np_mean score_weights in
  let score_weights :=
    if _normalize self
    then map (λ w, w / normalization)%fl score_weights
    else score_weights in
  let u := map (λ yi, (yi - coef) / _h self)%fl y in
  let kernel_est := map kernel u in
  wk ← ew2 fmul score_weights kernel_est;
  Ok (map (λ v, v / _h self)%fl wk).

(** [(d == self.treatment) / prop * (y <= theta) - self.quantile]. *)
Definition _compute_ipw_score (theta : npfloat) (d : list Z)
    (y : list npfloat)
    (prop : list npfloat) : result (list npfloat) :=
  let ind := map (λ di, bool_decide (di = _treatment self)) d in
  t1 ← ew2 fdiv (astype_float ind) prop;
  t2 ← ew2 fmul t1 (astype_float (le_coef y theta));
  Ok (map (λ v, v - Fin (_quantile self))%fl t2).
End Score.

(** ** Trimming *)

(** One entry clipped into [[lo, hi]]; NaN stays NaN. *)
Definition clip (lo hi : R) (v : npfloat) : npfloat :=
  if flt v (Fin lo) then Fin lo
  else if fgt v (Fin hi) then Fin hi
  else v.

(** Modelled from the spec: [_trimm] of [doubleml/_utils.py], which is not
    part of the sources at hand.  Given a probability-like array, a trimming
    rule (only "truncate" is supported) and a threshold tau in (0, 0.5), it
    returns the array clipped element-wise to [[tau, 1 - tau]]; it fails with
    a validation error if tau is out of (0, 0.5) or the rule is
    unrecognized. *)
Definition _trimm (preds : list npfloat) (trimming_rule : trimming_rule_t)
    (trimming_threshold : R) : result (list npfloat) :=
  match trimming_rule with
  | truncate =>
      if bool_decide (0 < trimming_threshold ∧ trimming_threshold < 1 / 2)
      then Ok (map (clip trimming_threshold (1 - trimming_threshold)) preds)
      else Raise (ValueError "Invalid trimming_threshold")
  | other_rule _ => Raise (ValueError "Invalid trimming_rule")
  end.

(** [1 - a] on an array. *)
Definition one_minus (a : list npfloat) : list npfloat :=
  map (λ v, Fin 1 - v)%fl a.

(** ** Learners *)

(** The learner capability: [clone] gives an unfitted copy with the same
    parameters, [fit] changes the object it is called on (the result is the
    object after the call), [predict_proba] gives for each row the
    probabilities of the classes 0 and 1. *)
Class Learner (L : Type) : Type := {
  clone : L → L;
  fit : L → list Row → list Z → result L;
  predict_proba : L → list Row → result (list (R * R));
}.

Section Predictors.
Context {L : Type} `{Learner L}.

(** Modelled from the spec: [_predict_zero_one_propensity] of
    [doubleml/_utils.py]: the positive-class column of the probability
    matrix the learner predicts. *)
Definition _predict_zero_one_propensity (learner : L) (X : list Row)
  : result (list npfloat) :=
  proba ← predict_proba learner X;
  Ok (map (λ p : R * R, Fin p.2) proba).

(** Modelled from the spec: [_dml_cv_predict] of [doubleml/_utils.py]
    (the cross-fitted predictor): it fits a fresh clone of the learner on
    each train split and predicts on the corresponding test split, writing
    the results into a length-n output array indexed by the test
    indices. *)
Fixpoint cv_predict_folds (estimator : L) (X : list Row) (labels : list Z)
    (smpls : list (list nat * list nat)) (preds : list npfloat)
  : result (list npfloat) :=
  match smpls with
  | [] => Ok preds
  | (train_index, test_index) :: rest =>
      x_train ← np_take X train_index;
      y_train ← np_take labels train_index;
      fitted ← fit (clone estimator) x_train y_train;
      x_test ← np_take X test_index;
      p ← _predict_zero_one_propensity fitted x_test;
      preds ← assign_at preds test_index p;
      cv_predict_folds estimator X labels rest preds
  end.

Definition _dml_cv_predict (estimator : L) (X : list Row) (labels : list Z)
    (smpls : list (list nat * list nat)) : result (list npfloat) :=
  cv_predict_folds estimator X labels smpls (np_full (length X) NaN).
End Predictors.

(** ** Collaborators from numpy, scipy, sklearn and the package *)

Definition objective : Type := npfloat → result npfloat.

Class Env : Type := {
  (** [train_test_split(inds, test_size=0.5, random_state=42, stratify=s)] *)
  train_test_split : list nat → list Z → result (list nat * list nat);
  (** [StratifiedKFold(n_splits=k).split(X=inds, y=labels)] *)
  stratified_kfold_split :
    nat → list nat → list Z → result (list (list nat * list nat));
  (** [_get_bracket_guess(score, coef_start, coef_bounds)] *)
  _get_bracket_guess :
    objective → npfloat → npfloat * npfloat →
    result (bool * (npfloat * npfloat));
  (** [root_scalar(f, bracket=b, method='brentq').root] *)
  root_scalar : objective → npfloat * npfloat → result npfloat;
  (** [np.quantile(a, q)] *)
  np_quantile : list npfloat → R → npfloat;
  (** [DoubleMLResampling(n_folds, n_rep, n_obs, apply_cross_fitting,
      stratify).split_samples()] *)
  split_samples :
    nat → nat → nat → bool → list Z →
    result (list (list (list nat * list nat)));
}.

(** [check_X_y(X, y, force_all_finite=False)] of sklearn: the two arrays
    must have the same number of rows, at least one; NaN entries pass. *)
Definition check_X_y {A} (X : list Row) (v : list A)
  : result (list Row * list A) :=
  if decide (length X = length v) then
    if decide (length X = 0)%nat
    then Raise (ValueError "Found array with 0 sample(s)")
    else Ok (X, v)
  else Raise (ValueError "Found input variables with inconsistent numbers of samples").

(** [a.min()] and [a.max()]: an error on the empty array, NaN as soon as an
    entry is NaN. *)
Definition fmin (a b : npfloat) : npfloat := lift2 Rmin a b.
Definition fmax (a b : npfloat) : npfloat := lift2 Rmax a b.

Definition np_min (a : list npfloat) : result npfloat :=
  match a with
  | [] => Raise (ValueError "zero-size array to reduction operation minimum")
  | v :: rest => Ok (foldr fmin v rest)
  end.

Definition np_max (a : list npfloat) : result npfloat :=
  match a with
  | [] => Raise (ValueError "zero-size array to reduction operation maximum")
  | v :: rest => Ok (foldr fmax v rest)
  end.

(** [np.power(n, -0.2)] for a number of observations. *)
Definition np_power_n_obs (n : nat) : npfloat :=
  Fin (Rpower (INR n) (- (2 / 10))).

(** ** Methods on the estimator object *)

(** A method call: the result, and the object after the call (also when
    the call raises). *)
Definition meth (L A : Type) : Type := DoubleMLPQ L → result A * DoubleMLPQ L.

#[global] Instance meth_ret {L} : MRet (meth L) := λ A a self, (Ok a, self).
#[global] Instance meth_bind {L} : MBind (meth L) := λ A B f c self,
  match c self with
  | (Ok a, self') => f a self'
  | (Raise e, self') => (Raise e, self')
  end.

Definition get_self {L} : meth L (DoubleMLPQ L) := λ self, (Ok self, self).
Definition lift_result {L A} (r : result A) : meth L A := λ self, (r, self).
Definition raise {L A} (e : pyerr) : meth L A := λ self, (Raise e, self).

Definition set_coef_start_val {L} (v : npfloat) : meth L unit := λ self,
  (Ok tt,
   {| _dml_data := _dml_data self; n_folds := n_folds self;
      n_rep := n_rep self; _quantile := _quantile self;
      _treatment := _treatment self; _h := _h self;
      _normalize := _normalize self; _trimming_rule := _trimming_rule self;
      _trimming_threshold := _trimming_threshold self;
      _coef_bounds := _coef_bounds self; _coef_start_val := v;
      _learner_ml_g := _learner_ml_g self;
      _learner_ml_m := _learner_ml_m self; _smpls := _smpls self |}).

Definition set_learner_ml_g {L} (l : L) : meth L unit := λ self,
  (Ok tt,
   {| _dml_data := _dml_data self; n_folds := n_folds self;
      n_rep := n_rep self; _quantile := _quantile self;
      _treatment := _treatment self; _h := _h self;
      _normalize := _normalize self; _trimming_rule := _trimming_rule self;
      _trimming_threshold := _trimming_threshold self;
      _coef_bounds := _coef_bounds self;
      _coef_start_val := _coef_start_val self;
      _learner_ml_g := l;
      _learner_ml_m := _learner_ml_m self; _smpls := _smpls self |}).

Definition set_learner_ml_m {L} (l : L) : meth L unit := λ self,
  (Ok tt,
   {| _dml_data := _dml_data self; n_folds := n_folds self;
      n_rep := n_rep self; _quantile := _quantile self;
      _treatment := _treatment self; _h := _h self;
      _normalize := _normalize self; _trimming_rule := _trimming_rule self;
      _trimming_threshold := _trimming_threshold self;
      _coef_bounds := _coef_bounds self;
      _coef_start_val := _coef_start_val self;
      _learner_ml_g := _learner_ml_g self;
      _learner_ml_m := l; _smpls := _smpls self |}).

(** [for a in l: acc = body(a, acc)]. *)
Fixpoint for_each {L A S} (l : list A) (body : A → S → meth L S) (acc : S)
  : meth L S :=
  match l with
  | [] => mret acc
  | a :: rest => acc' ← body a acc; for_each rest body acc'
  end.

(** [l[i]] on a Python list. *)
Definition py_index {A} (l : list A) (i : nat) : result A :=
  match l !! i with
  | Some v => Ok v
  | None => Raise (IndexError "list index out of range")
  end.

(** The dict [{'ml_g': g_hat, 'ml_m': m_hat}]. *)
Record preds_t : Type := {
  preds_ml_g : list npfloat;
  preds_ml_m : list npfloat;
}.

Section Nuisance.
Context {L : Type} `{Learner L} `{Env}.

(** [self._learner['ml_g'].fit(X, labels)]: the stored object is fitted. *)
Definition fit_ml_g (X : list Row) (labels : list Z) : meth L unit :=
  self ← get_self;
  fitted ← lift_result (fit (_learner_ml_g self) X labels);
  set_learner_ml_g fitted.

Definition fit_ml_m (X : list Row) (labels : list Z) : meth L unit :=
  self ← get_self;
  fitted ← lift_result (fit (_learner_ml_m self) X labels);
  set_learner_ml_m fitted.

(** [d == self.treatment], elementwise. *)
Definition eq_treatment (self : DoubleMLPQ L) (d : list Z) : list bool :=
  map (λ di, bool_decide (di = _treatment self)) d.

(** The preliminary propensities of a fold: the raw out-of-fold
    predictions are trimmed, then inverted for the baseline level.
    [m_hat_prelim = _trimm(m_hat_prelim, ...)];
    [if self.treatment == 0: m_hat_prelim = 1 - m_hat_prelim]. *)
Definition prelim_propensity (self : DoubleMLPQ L)
    (m_hat_prelim : list npfloat) : result (list npfloat) :=
  m_hat_prelim ←
    _trimm m_hat_prelim (_trimming_rule self) (_trimming_threshold self);
  Ok (if decide (_treatment self = 0%Z) then one_minus m_hat_prelim
      else m_hat_prelim).

(** The propensities after the loop: inverted for the baseline level,
    then clipped.
    [if self.treatment == 0: m_hat = 1 - m_hat];
    [m_hat = _trimm(m_hat, ...)]. *)
Definition final_propensity (self : DoubleMLPQ L) (m_hat : list npfloat)
  : result (list npfloat) :=
  let m_hat :=
    if decide (_treatment self = 0%Z) then one_minus m_hat else m_hat in
  _trimm m_hat (_trimming_rule self) (_trimming_threshold self).

(** The body of the loop over the folds of [_nuisance_est]. *)
Definition nuisance_fold (smpls : list (list nat * list nat))
    (x : list Row) (y : list npfloat) (d : list Z)
    (i_fold : nat) (hats : list npfloat * list npfloat)
  : meth L (list npfloat * list npfloat) :=
  let '(g_hat, m_hat) := hats in
  '(train_inds, test_inds) ← lift_result (py_index smpls i_fold);
  (* start nested crossfitting *)
  d_train ← lift_result (np_take d train_inds);
  '(train_inds_1, train_inds_2) ←
    lift_result (train_test_split train_inds d_train);
  d_train_1 ← lift_result (np_take d train_inds_1);
  self ← get_self;
  smpls_prelim ←
    lift_result (stratified_kfold_split (n_folds self) train_inds_1 d_train_1);
  d_train_1 ← lift_result (np_take d train_inds_1);
  y_train_1 ← lift_result (np_take y train_inds_1);
  x_train_1 ← lift_result (np_take x train_inds_1);
  m_hat_prelim ←
    lift_result (_dml_cv_predict (_learner_ml_m self) x_train_1 d_train_1
                   smpls_prelim);
  m_hat_prelim ← lift_result (prelim_propensity self m_hat_prelim);
  (* preliminary ipw estimate *)
  let ipw_score : objective := λ theta,
    np_mean <$> _compute_ipw_score self theta d_train_1 y_train_1 m_hat_prelim in
  '(_, bracket_guess) ←
    lift_result (_get_bracket_guess ipw_score (_coef_start_val self)
                   (_coef_bounds self));
  ipw_est ← lift_result (root_scalar ipw_score bracket_guess);
  (* readjust start value for minimization *)
  _ ← set_coef_start_val ipw_est;
  (* use the preliminary estimates to fit the nuisance parameters on train_2 *)
  d_train_2 ← lift_result (np_take d train_inds_2);
  y_train_2 ← lift_result (np_take y train_inds_2);
  x_train_2 ← lift_result (np_take x train_inds_2);
  dx_treat_train_2 ←
    lift_result (take_mask x_train_2 (eq_treatment self d_train_2));
  y_treat_train_2 ←
    lift_result (take_mask y_train_2 (eq_treatment self d_train_2));
  _ ← fit_ml_g dx_treat_train_2
        (map (λ yi, Z.b2z (fle yi ipw_est)) y_treat_train_2);
  (* predict nuisance values on the test data *)
  x_test ← lift_result (np_take x test_inds);
  self ← get_self;
  g_pred ← lift_result (_predict_zero_one_propensity (_learner_ml_g self) x_test);
  g_hat ← lift_result (assign_at g_hat test_inds g_pred);
  (* refit the propensity score on the whole training set *)
  x_train ← lift_result (np_take x train_inds);
  d_train ← lift_result (np_take d train_inds);
  _ ← fit_ml_m x_train d_train;
  x_test ← lift_result (np_take x test_inds);
  self ← get_self;
  m_pred ← lift_result (_predict_zero_one_propensity (_learner_ml_m self) x_test);
  m_hat ← lift_result (assign_at m_hat test_inds m_pred);
  mret (g_hat, m_hat).

Definition _nuisance_est (smpls : list (list nat * list nat))
    (n_jobs_cv : option Z) (return_models : bool)
  : meth L (psi_elements * preds_t) :=
  self ← get_self;
  '(x, y) ← lift_result (check_X_y (x (_dml_data self)) (y (_dml_data self)));
  '(x, d) ← lift_result (check_X_y x (d (_dml_data self)));
  (* initialize nuisance predictions *)
  let g_hat := np_full (n_obs (_dml_data self)) NaN in
  let m_hat := np_full (n_obs (_dml_data self)) NaN in
  (* calculate nuisance functions over different folds *)
  '(g_hat, m_hat) ←
    for_each (seq 0 (n_folds self)) (nuisance_fold smpls x y d) (g_hat, m_hat);
  self ← get_self;
  m_hat ← lift_result (final_propensity self m_hat);
  let psi_elements :=
    {| ind_d := eq_treatment self d; g := g_hat; m := m_hat; psi_y := y |} in
  let preds := {| preds_ml_g := g_hat; preds_ml_m := m_hat |} in
  mret (psi_elements, preds).

(** None of the tuning arguments is looked at. *)
Definition _nuisance_tuning {S P M : Type} (smpls : S) (param_grids : P)
    (scoring_methods : M) (n_folds_tune : Z) (n_jobs_cv : option Z)
    (search_mode : string) (n_iter_randomized_search : Z)
  : meth L unit :=
  raise (NotImplementedError
           "Nuisance tuning not implemented for potential quantiles.").
End Nuisance.

(** ** Construction *)

(** The values a caller can pass for a dynamically typed argument. *)
Inductive pyval : Type :=
| PyNone
| PyBool (b : bool)
| PyInt (z : Z)
| PyFloat (f : npfloat)
| PyStr (s : string).

(** The object passed as [obj_dml_data]. *)
Inductive pyobj : Type :=
| DataObj (data : DoubleMLData)
| OtherObj (v : pyval).

Record init_args (L : Type) : Type := {
  obj_dml_data : pyobj;
  ml_g : L;
  ml_m : L;
  treatment : pyval;
  quantile : pyval;
  arg_n_folds : nat;
  arg_n_rep : nat;
  score : pyval;
  dml_procedure : string;
  trimming_rule : pyval;
  trimming_threshold : pyval;
  h : pyval;
  normalize : pyval;
  draw_sample_splitting : bool;
  apply_cross_fitting : bool;
}.
Arguments obj_dml_data {L} _.
Arguments ml_g {L} _.
Arguments ml_m {L} _.
Arguments treatment {L} _.
Arguments quantile {L} _.
Arguments arg_n_folds {L} _.
Arguments arg_n_rep {L} _.
Arguments score {L} _.
Arguments dml_procedure {L} _.
Arguments trimming_rule {L} _.
Arguments trimming_threshold {L} _.
Arguments h {L} _.
Arguments normalize {L} _.
Arguments draw_sample_splitting {L} _.
Arguments apply_cross_fitting {L} _.

(** Modelled from the spec: [DoubleML.__init__] of [doubleml/double_ml.py],
    which is not part of the sources at hand.  Of what it does the
    constructor below relies on two attributes: the data container it
    stores, and whether that container carries cluster variables. *)
Definition base_is_cluster_data (obj : pyobj) : bool :=
  match obj with
  | DataObj data => bool_decide (cluster_cols data ≠ None)
  | OtherObj _ => false
  end.

(** Modelled from the spec: [_check_contains_iv] of [doubleml/_utils.py]:
    data containing instrumental variables is rejected. *)
Definition _check_contains_iv (data : DoubleMLData) : result unit :=
  match z_cols data with
  | None => Ok tt
  | Some _ => Raise (ValueError "Incompatible data: instrumental variable(s) have been set.")
  end.

(** Modelled from the spec: [_check_zero_one_treatment] of
    [doubleml/_utils.py]: the treatment has to be binary with values 0
    and 1. *)
Definition _check_zero_one_treatment (data : DoubleMLData) : result unit :=
  if forallb (λ di, bool_decide (di = 0%Z ∨ di = 1%Z)) (d data) then Ok tt
  else Raise (ValueError "Incompatible data: binary treatment with values 0 and 1 needed.").

(** Modelled from the spec: [_check_score] of [doubleml/_utils.py]: 'PQ'
    is the only choice. *)
Definition _check_score (score : pyval) : result unit :=
  match score with
  | PyStr s => if decide (s = "PQ") then Ok tt
               else Raise (ValueError "Invalid score.")
  | _ => Raise (TypeError "score should be a string.")
  end.

(** Modelled from the spec: [_check_quantile] of [doubleml/_utils.py]: the
    quantile must be in (0, 1). *)
Definition _check_quantile (quantile : pyval) : result R :=
  match quantile with
  | PyFloat (Fin q) =>
      if bool_decide (0 < q ∧ q < 1) then Ok q
      else Raise (ValueError "Quantile has be between 0 or 1.")
  | PyFloat NaN => Raise (ValueError "Quantile has be between 0 or 1.")
  | _ => Raise (TypeError "Quantile has to be a float.")
  end.

(** Modelled from the spec: [_check_treatment] of [doubleml/_utils.py]: the
    treatment indicator must be 0 or 1. *)
Definition _check_treatment (treatment : pyval) : result Z :=
  match treatment with
  | PyInt z =>
      if bool_decide (z = 0%Z ∨ z = 1%Z) then Ok z
      else Raise (ValueError "Treatment indicator has be either 0 or 1.")
  | _ => Raise (TypeError "Treatment indicator has to be an integer.")
  end.

(** Modelled from the spec: [_check_trimming] of [doubleml/_utils.py]: only
    the rule "truncate" with a threshold in (0, 0.5) is valid. *)
Definition _check_trimming (trimming_rule trimming_threshold : pyval)
  : result (trimming_rule_t * R) :=
  match trimming_rule with
  | PyStr s =>
      if decide (s = "truncate") then
        match trimming_threshold with
        | PyFloat (Fin t) =>
            if bool_decide (0 < t ∧ t < 1 / 2) then Ok (truncate, t)
            else Raise (ValueError "Invalid trimming_threshold.")
        | PyFloat NaN => Raise (ValueError "Invalid trimming_threshold.")
        | _ => Raise (TypeError "trimming_threshold has to be a float.")
        end
      else Raise (ValueError "Invalid trimming_rule.")
  | _ => Raise (ValueError "Invalid trimming_rule.")
  end.

Definition _check_data (obj : pyobj) : result DoubleMLData :=
  match obj with
  | OtherObj _ => Raise (TypeError "The data must be of DoubleMLData type.")
  | DataObj data =>
      _ ← _check_contains_iv data;
      _ ← _check_zero_one_treatment data;
      Ok data
  end.

Definition _check_bandwidth (bandwidth : pyval) : result npfloat :=
  match bandwidth with
  | PyFloat f =>
      if fle f (Fin 0) then Raise (ValueError "Bandwidth has be positive.")
      else Ok f
  | _ => Raise (TypeError "Bandwidth has to be a float.")
  end.

(** [self._dml_data.n_obs] before the container has been checked. *)
Definition obj_n_obs (obj : pyobj) : result nat :=
  match obj with
  | DataObj data => Ok (n_obs data)
  | OtherObj _ => Raise (TypeError "object has no attribute n_obs")
  end.

(** The configurations the constructor has to reject: a quantile that is
    not a float in (0, 1), a treatment indicator that is not 0 or 1, a
    bandwidth that is given and is not a positive float, an invalid trimming
    rule or threshold, a normalize flag that is not a boolean, a data
    container of the wrong type, with instrumental variables, with a
    treatment that is not binary, or with cluster variables. *)
Definition positive_float (v : pyval) : Prop :=
  ∃ r, v = PyFloat (Fin r) ∧ 0 < r.

Definition invalid_configuration {L} (args : init_args L) : Prop :=
  ¬ (∃ q, quantile args = PyFloat (Fin q) ∧ 0 < q < 1)
  ∨ ¬ (treatment args = PyInt 0 ∨ treatment args = PyInt 1)
  ∨ (h args ≠ PyNone ∧ ¬ positive_float (h args))
  ∨ trimming_rule args ≠ PyStr "truncate"
  ∨ ¬ (∃ t, trimming_threshold args = PyFloat (Fin t) ∧ 0 < t < 1 / 2)
  ∨ ¬ (∃ b, normalize args = PyBool b)
  ∨ (∃ v, obj_dml_data args = OtherObj v)
  ∨ (∃ data, obj_dml_data args = DataObj data ∧
       (z_cols data ≠ None
        ∨ ¬ Forall (λ di, di = 0%Z ∨ di = 1%Z) (d data)
        ∨ cluster_cols data ≠ None)).

Section Init.
Context {L : Type} `{Learner L} `{Env}.

(** [DoubleMLPQ.__init__]: the constructed object, or the error raised.
    The checks run in the order of the source.  The calls of
    [_check_learner] and [_initialize_ml_nuisance_params] are left out: the
    learners are typed by [Learner], and the parameter table is not read by
    the methods modelled here. *)
Definition DoubleMLPQ_init (args : init_args L) : result (DoubleMLPQ L) :=
  let is_cluster_data := base_is_cluster_data (obj_dml_data args) in
  h' ← match h args with
       | PyNone => n ← obj_n_obs (obj_dml_data args);
                   Ok (PyFloat (np_power_n_obs n))
       | v => Ok v
       end;
  _ ← (if is_cluster_data
       then Raise (NotImplementedError "Estimation with clustering not implemented.")
       else Ok tt);
  data ← _check_data (obj_dml_data args);
  _ ← _check_score (score args);
  quantile ← _check_quantile (quantile args);
  treatment ← _check_treatment (treatment args);
  bandwidth ← _check_bandwidth h';
  normalize ← match normalize args with
              | PyBool b => Ok b
              | _ => Raise (TypeError "Normalization indicator has to be boolean.")
              end;
  (* initialize starting values and bounds *)
  y_min ← np_min (y data);
  y_max ← np_max (y data);
  let coef_start_val := np_quantile (y data) quantile in
  (* initialize and check trimming *)
  '(rule, threshold) ←
    _check_trimming (trimming_rule args) (trimming_threshold args);
  let learner_g := clone (ml_g args) in
  let learner_m := clone (ml_m args) in
  smpls ← (if draw_sample_splitting args
           then split_samples (arg_n_folds args) (arg_n_rep args)
                  (n_obs data) (apply_cross_fitting args) (d data)
           else Ok []);
  Ok {| _dml_data := data; n_folds := arg_n_folds args;
        n_rep := arg_n_rep args; _quantile := quantile;
        _treatment := treatment; _h := bandwidth;
        _normalize := normalize; _trimming_rule := rule;
        _trimming_threshold := threshold;
        _coef_bounds := (y_min, y_max);
        _coef_start_val := coef_start_val;
        _learner_ml_g := learner_g; _learner_ml_m := learner_m;
        _smpls := smpls |}.
End Init.

(** The weights [ind_d / m] of the derivative on the arrays [ds] and [ms],
    divided by their mean when [normalize] is set. *)
Definition score_weights {L} (self : DoubleMLPQ L) (ds : list bool)
    (ms : list npfloat) : list npfloat :=
  if _normalize self
  then map (λ w, w / np_mean (zip_with fdiv (astype_float ds) ms))%fl
         (zip_with fdiv (astype_float ds) ms)
  else zip_with fdiv (astype_float ds) ms.

(** Entry [j] of the array is a number. *)
Definition finite_at (a : list npfloat) (j : nat) : Prop :=
  ∃ r, a !! j = Some (Fin r).

(** ** Sample splits and frames *)

(** One of the folds [a, ..., a + k - 1] has index [j] in its test set. *)
Definition tested_in (smpls : list (list nat * list nat)) (a k j : nat)
  : Prop :=
  ∃ i fold, (a ≤ i < a + k)%nat ∧ smpls !! i = Some fold ∧ j ∈ fold.2.


(** The test sets of the folds are pairwise disjoint and their union is
    the index range [0, n). *)
Definition test_sets_partition (n : nat) (smpls : list (list nat * list nat))
  : Prop :=
  (∀ i j a b, i ≠ j → smpls !! i = Some a → smpls !! j = Some b →
     ∀ k, k ∈ a.2 → k ∉ b.2)
  ∧ (∀ k, (k < n)%nat ↔ ∃ fold, fold ∈ smpls ∧ k ∈ fold.2).

(** Index [k] is in the test set of one of the folds. *)
Definition in_some_test_set (smpls : list (list nat * list nat)) (k : nat)
  : Prop :=
  ∃ fold, fold ∈ smpls ∧ k ∈ fold.2.

(** Two states of the object that differ at most in the start value of the
    root search and in the stored learners. *)
Definition same_config {L} (s s' : DoubleMLPQ L) : Prop :=
  _dml_data s' = _dml_data s ∧ n_folds s' = n_folds s ∧
  n_rep s' = n_rep s ∧ _quantile s' = _quantile s ∧
  _treatment s' = _treatment s ∧ _h s' = _h s ∧
  _normalize s' = _normalize s ∧ _trimming_rule s' = _trimming_rule s ∧
  _trimming_threshold s' = _trimming_threshold s ∧
  _coef_bounds s' = _coef_bounds s ∧ _smpls s' = _smpls s.

(** ** A concrete learner and concrete collaborators

    They are used to run the methods on explicit data. *)

(** A classifier that predicts the smoothed frequency of the label 1 among
    the labels it was fitted on.  With [warm_start] a new call of [fit]
    keeps the labels of the earlier calls, as sklearn's learners with
    [warm_start=True] keep their earlier state. *)
Record freq_learner : Type := {
  warm_start : bool;
  seen : list Z;
}.

Definition freq_proba (l : freq_learner) : R :=
  INR (1 + length (filter (λ z, z = 1%Z) (seen l)))
  / INR (2 + length (seen l)).

#[global] Instance freq_learner_ops : Learner freq_learner := {|
  clone l := {| warm_start := warm_start l; seen := [] |};
  fit l X labels :=
    Ok {| warm_start := warm_start l;
          seen := if warm_start l then seen l ++ labels else labels |};
  predict_proba l X := Ok (map (λ _, (1 - freq_proba l, freq_proba l)) X);
|}.

(** K-fold over the positions [0 .. n-1]: position [p] is in the test set
    of fold [p mod k]. *)
Definition kfold_by_position (k n : nat) : list (list nat * list nat) :=
  map (λ j, (filter (λ p, p mod k ≠ j)%nat (seq 0 n),
             filter (λ p, p mod k = j)%nat (seq 0 n)))
      (seq 0 k).

(** Bisection on a bracket, for an objective that is negative on the left
    of its root. *)
Fixpoint bisect (fuel : nat) (f : objective) (a b : R) : result npfloat :=
  match fuel with
  | O => Ok (Fin ((a + b) / 2))
  | S fuel' =>
      f_mid ← f (Fin ((a + b) / 2));
      if fle f_mid (Fin 0) then bisect fuel' f ((a + b) / 2) b
      else bisect fuel' f a ((a + b) / 2)
  end.

Definition bracket_solver (fuel : nat) (f : objective)
    (bracket : npfloat * npfloat) : result npfloat :=
  match bracket with
  | (Fin a, Fin b) =>
      f_a ← f (Fin a);
      f_b ← f (Fin b);
      if is_nan (f_a * f_b)%fl
      then Raise (ValueError "The function value is NaN; solver cannot continue.")
      else if flt (Fin 0) (f_a * f_b)%fl
      then Raise (ValueError "f(a) and f(b) must have different signs")
      else bisect fuel f a b
  | _ => Raise (ValueError "The bracket is NaN")
  end.

(** The empirical quantile with linear interpolation between the order
    statistics. *)
Fixpoint insert_sorted (v : R) (l : list R) : list R :=
  match l with
  | [] => [v]
  | u :: rest =>
      if bool_decide (v <= u) then v :: l else u :: insert_sorted v rest
  end.

Definition sort_R (l : list R) : list R := foldr insert_sorted [] l.

Definition finite_values (a : list npfloat) : option (list R) :=
  mapM (λ v, match v with Fin r => Some r | NaN => None end) a.

Definition linear_quantile (a : list npfloat) (q : R) : npfloat :=
  match finite_values a with
  | None => NaN
  | Some rs =>
      let s := sort_R rs in
      let pos := q * INR (length s - 1) in
      match list_find (λ k, INR k <= pos ∧ pos < INR k + 1) (seq 0 (length s)) with
      | Some (_, k) =>
          match s !! k, s !! S k with
          | Some lo, Some hi => Fin (lo + (pos - INR k) * (hi - lo))
          | Some lo, None => Fin lo
          | _, _ => NaN
          end
      | None => NaN
      end
  end.

Definition simple_env : Env := {|
  train_test_split inds _ :=
    Ok (take (length inds / 2)%nat inds, drop (length inds / 2)%nat inds);
  stratified_kfold_split k inds _ := Ok (kfold_by_position k (length inds));
  _get_bracket_guess _ _ bounds := Ok (true, bounds);
  root_scalar := bracket_solver 2;
  np_quantile := linear_quantile;
  split_samples k reps n _ _ := Ok (replicate reps (kfold_by_position k n));
|}.

(** Four observations, all with treatment 1. *)
Definition data4 : DoubleMLData := {|
  x := [[Fin 0]; [Fin 0]; [Fin 0]; [Fin 0]];
  y := [Fin 2; Fin 3; Fin 1; Fin 4];
  d := [1%Z; 1%Z; 1%Z; 1%Z];
  z_cols := None;
  cluster_cols := None;
|}.

Definition args4 (warm : bool) (bandwidth : pyval) : init_args freq_learner := {|
  obj_dml_data := DataObj data4;
  ml_g := {| warm_start := warm; seen := [] |};
  ml_m := {| warm_start := warm; seen := [] |};
  treatment := PyInt 1;
  quantile := PyFloat (Fin (1 / 2));
  arg_n_folds := 2;
  arg_n_rep := 1;
  score := PyStr "PQ";
  dml_procedure := "dml2";
  trimming_rule := PyStr "truncate";
  trimming_threshold := PyFloat (Fin (1 / 100));
  h := bandwidth;
  normalize := PyBool true;
  draw_sample_splitting := true;
  apply_cross_fitting := true;
|}.

(** The two folds of [data4]: (train, test). *)
Definition smpls4 : list (list nat * list nat) :=
  [([1; 3], [0; 2]); ([0; 2], [1; 3])]%nat.

(** The object [DoubleMLPQ(data4, ..., treatment=1, quantile=0.5,
    n_folds=2, trimming_threshold=0.01, h=bandwidth)] after construction;
    2.5 is the median of the outcomes 2, 3, 1, 4. *)
Definition pq4_with (warm : bool) (bandwidth : npfloat)
  : DoubleMLPQ freq_learner := {|
  _dml_data := data4; n_folds := 2; n_rep := 1;
  _quantile := 1 / 2; _treatment := 1; _h := bandwidth;
  _normalize := true; _trimming_rule := truncate;
  _trimming_threshold := 1 / 100;
  _coef_bounds := (Fin 1, Fin 4);
  _coef_start_val := Fin (5 / 2);
  _learner_ml_g := {| warm_start := warm; seen := [] |};
  _learner_ml_m := {| warm_start := warm; seen := [] |};
  _smpls := [smpls4];
|}.

Definition pq4 (warm : bool) : DoubleMLPQ freq_learner :=
  pq4_with warm (Fin 1).

(** [pq4] with the normalization of the weights switched off. *)
Definition pq4_unnormalized : DoubleMLPQ freq_learner := {|
  _dml_data := data4; n_folds := 2; n_rep := 1;
  _quantile := 1 / 2; _treatment := 1; _h := Fin 1;
  _normalize := false; _trimming_rule := truncate;
  _trimming_threshold := 1 / 100;
  _coef_bounds := (Fin 1, Fin 4);
  _coef_start_val := Fin (5 / 2);
  _learner_ml_g := {| warm_start := false; seen := [] |};
  _learner_ml_m := {| warm_start := false; seen := [] |};
  _smpls := [smpls4];
|}.


(** A bundle of two rows with different weights [ind_d / m]. *)
Definition psi2 : psi_elements := {|
  ind_d := [true; true];
  g := [Fin (1 / 2); Fin (1 / 2)];
  m := [Fin (1 / 2); Fin (1 / 4)];
  psi_y := [Fin 0; Fin 0];
|}.

(** The result of [_nuisance_est] on [pq4] and the object after the call.
    The stored propensity learner is fitted on the labels [1; 1] of each
    fold in turn, the stored learner of the conditional distribution on the
    label [0] in the first fold and on the label [1] in the second. *)
Definition m_hat4 (warm : bool) : list npfloat :=
  [Fin (3 / 4); Fin (if warm then 5 / 6 else 3 / 4);
   Fin (3 / 4); Fin (if warm then 5 / 6 else 3 / 4)].

Definition g_hat4 (warm : bool) : list npfloat :=
  [Fin (1 / 3); Fin (if warm then 1 / 2 else 2 / 3);
   Fin (1 / 3); Fin (if warm then 1 / 2 else 2 / 3)].

Definition result4 (warm : bool) : psi_elements * preds_t :=
  ({| ind_d := [true; true; true; true]; g := g_hat4 warm;
      m := m_hat4 warm; psi_y := y data4 |},
   {| preds_ml_g := g_hat4 warm; preds_ml_m := m_hat4 warm |}).

Definition pq4_after (warm : bool) : DoubleMLPQ freq_learner := {|
  _dml_data := data4; n_folds := 2; n_rep := 1;
  _quantile := 1 / 2; _treatment := 1; _h := Fin 1;
  _normalize := true; _trimming_rule := truncate;
  _trimming_threshold := 1 / 100;
  _coef_bounds := (Fin 1, Fin 4);
  _coef_start_val := Fin (17 / 8);
  _learner_ml_g :=
    {| warm_start := warm;
       seen := if warm then [0%Z; 1%Z] else [1%Z] |};
  _learner_ml_m :=
    {| warm_start := warm;
       seen := if warm then [1%Z; 1%Z; 1%Z; 1%Z] else [1%Z; 1%Z] |};
  _smpls := [smpls4];
|}.

(** A split of [data4] that leaves index 3 out of every test set, and the
    result of [_nuisance_est] on it. *)
Definition smpls4_partial : list (list nat * list nat) :=
  [([1; 3], [0; 2]); ([0; 2], [1])]%nat.

Definition result4_partial : psi_elements * preds_t :=
  ({| ind_d := [true; true; true; true];
      g := [Fin (1 / 3); Fin (2 / 3); Fin (1 / 3); NaN];
      m := [Fin (3 / 4); Fin (3 / 4); Fin (3 / 4); NaN];
      psi_y := y data4 |},
   {| preds_ml_g := [Fin (1 / 3); Fin (2 / 3); Fin (1 / 3); NaN];
      preds_ml_m := [Fin (3 / 4); Fin (3 / 4); Fin (3 / 4); NaN] |}).

(** The density of the standard normal distribution. *)
Definition std_normal_pdf (u : R) : R := exp (- (u ^ 2) / 2) / sqrt (2 * PI).

(** ** Evaluation on explicit data *)

(** Decides the comparisons of an expression over explicit numbers. *)
Ltac decide_step :=
  match goal with
  | |- context [@bool_decide ?P ?D] =>
      first [ rewrite (@bool_decide_eq_true_2 P D)
                by (simpl; first [lra | lia | done | intuition lia])
            | rewrite (@bool_decide_eq_false_2 P D)
                by (simpl; first [lra | lia | done | intuition lia]) ]
  | |- context [@decide ?P ?D] =>
      first [ rewrite (@decide_True _ P D)
                by (simpl; first [lra | lia | done])
            | rewrite (@decide_False _ P D)
                by (simpl; first [lra | lia | done]) ]
  end.

Ltac min_max_step :=
  match goal with
  | |- context [Rmin ?a ?b] =>
      first [ rewrite (Rmin_left a b) by lra
            | rewrite (Rmin_right a b) by lra ]
  | |- context [Rmax ?a ?b] =>
      first [ rewrite (Rmax_left a b) by lra
            | rewrite (Rmax_right a b) by lra ]
  end.

Ltac unfold_py :=
  unfold mbind, mret, fmap, meth_bind, meth_ret, get_self, lift_result,
    set_coef_start_val, set_learner_ml_g, set_learner_ml_m, fit_ml_g,
    fit_ml_m, nuisance_fold, check_X_y, prelim_propensity, final_propensity,
    _trimm, _dml_cv_predict, _compute_ipw_score,
    _predict_zero_one_propensity, take_mask, assign_at, ew2, bracket_solver,
    clip, eq_treatment, py_index, n_obs, np_full, np_mean, np_sum, fle, flt,
    fgt, one_minus, freq_proba, b2f, astype_float, le_coef, pq4,
    pq4_with in *.

Ltac run_py := repeat (progress (unfold_py; cbn; repeat (decide_step; cbn))).

(** ** Results and arrays: basic facts *)

Lemma result_bind_ok {A B} (f : A → result B) (r : result A) (b : B) :
  r ≫= f = Ok b → ∃ a, r = Ok a ∧ f a = Ok b.
Proof. destruct r as [a|e]; cbn; [eauto | discriminate]. Qed.

Lemma result_bind_ret {A B} (f : A → result B) (a : A) : Ok a ≫= f = f a.
Proof. reflexivity. Qed.

Lemma fle_float_assoc (w k v : npfloat) : (w * k / v = w * (k / v))%fl.
Proof.
  destruct w, k, v; cbn; try reflexivity.
  f_equal. unfold Rdiv. ring.
Qed.

Lemma np_take_length {A} (a : list A) inds l :
  np_take a inds = Ok l → length l = length inds.
Proof.
  revert l. induction inds as [|i inds IH]; intros l; cbn.
  - intros [= <-]. reflexivity.
  - destruct (a !! i); [|discriminate].
    intros (vs & Hvs & [= <-])%result_bind_ok. cbn. f_equal. auto.
Qed.

Lemma np_take_lookup {A} (a : list A) inds l k i :
  np_take a inds = Ok l → inds !! k = Some i → l !! k = a !! i.
Proof.
  revert l k. induction inds as [|j inds IH]; intros l k; cbn.
  - intros _ [=].
  - destruct (a !! j) eqn:Hj; [|discriminate].
    intros (vs & Hvs & [= <-])%result_bind_ok.
    destruct k as [|k]; cbn.
    + intros [= ->]. by rewrite Hj.
    + eauto.
Qed.

Lemma np_take_in_range {A} (a : list A) inds :
  Forall (λ i, i < length a)%nat inds → ∃ l, np_take a inds = Ok l.
Proof.
  induction 1 as [|i inds Hi _ [l Hl]]; cbn; [eauto|].
  destruct (lookup_lt_is_Some_2 a i Hi) as [v ->].
  rewrite Hl. cbn. eauto.
Qed.

Lemma np_take_map {A B} (f : A → B) (a : list A) inds :
  np_take (map f a) inds = map f <$> np_take a inds.
Proof.
  induction inds as [|i inds IH]; cbn; [reflexivity|].
  change (map f a) with (f <$> a). rewrite list_lookup_fmap.
  destruct (a !! i); cbn; [|reflexivity].
  change (f <$> a) with (map f a). rewrite IH.
  destruct (np_take a inds); reflexivity.
Qed.

Lemma np_take_zip_with {A B C} (f : A → B → C) (a : list A) (b : list B) inds :
  length a = length b →
  np_take (zip_with f a b) inds =
  (a' ← np_take a inds; b' ← np_take b inds; Ok (zip_with f a' b')).
Proof.
  intros Hlen. induction inds as [|i inds IH]; cbn; [reflexivity|].
  rewrite lookup_zip_with.
  destruct (a !! i) as [u|] eqn:Ha; cbn.
  - destruct (lookup_lt_is_Some_2 b i) as [v Hb].
    { rewrite <- Hlen. eapply lookup_lt_Some, Ha. }
    rewrite Hb. cbn. rewrite IH.
    destruct (np_take a inds); cbn; [|reflexivity].
    destruct (np_take b inds); reflexivity.
  - reflexivity.
Qed.

Lemma ew2_same_length {A B C} (f : A → B → C) (a : list A) (b : list B) :
  length a = length b → ew2 f a b = Ok (zip_with f a b).
Proof. intros Hlen. unfold ew2. by rewrite decide_True. Qed.

Lemma select_length {A} (a : list A) inds l :
  select a inds = Ok l →
  length l = match inds with None => length a | Some inds => length inds end.
Proof.
  destruct inds as [inds|]; cbn.
  - apply np_take_length.
  - by intros [= <-].
Qed.

Lemma np_take_out_of_range {A} (a : list A) inds :
  ¬ Forall (λ i, i < length a)%nat inds →
  np_take a inds = Raise (IndexError "index is out of bounds").
Proof.
  induction inds as [|i inds IH]; cbn; intros Hnot.
  - destruct Hnot. constructor.
  - destruct (a !! i) eqn:Hi; [|reflexivity].
    rewrite IH; [reflexivity|].
    intros Hall. apply Hnot. constructor; [|done].
    eapply lookup_lt_Some, Hi.
Qed.

(** ** The score on a bundle *)

Section ScoreFacts.
Context {L : Type}.
Variable self : DoubleMLPQ L.

(** The score as one expression over the selected rows. *)
Lemma compute_score_selected psi coef inds ds gs ms ys :
  select (ind_d psi) inds = Ok ds →
  select (g psi) inds = Ok gs →
  select (m psi) inds = Ok ms →
  select (psi_y psi) inds = Ok ys →
  length gs = length ds → length ms = length ds → length ys = length ds →
  _compute_score self psi coef inds =
  Ok (map (λ v, v - Fin (_quantile self))%fl
        (zip_with fadd
           (zip_with fdiv
              (zip_with fmul (astype_float ds)
                 (zip_with fsub (astype_float (le_coef ys coef)) gs))
              ms)
           gs)).
Proof.
  intros Hd Hg Hm Hy Lg Lm Ly. unfold _compute_score.
  rewrite Hd, Hg, Hm, Hy. cbn.
  rewrite ew2_same_length
    by (unfold astype_float, le_coef; rewrite !length_map; lia).
  cbn. rewrite ew2_same_length
    by (unfold astype_float, le_coef;
        rewrite ?length_zip_with, ?length_map; lia).
  cbn. rewrite ew2_same_length
    by (unfold astype_float, le_coef;
        rewrite ?length_zip_with, ?length_map; lia).
  cbn. rewrite ew2_same_length
    by (unfold astype_float, le_coef;
        rewrite ?length_zip_with, ?length_map; lia).
  reflexivity.
Qed.

(** One entry of that expression. *)
Lemma score_rows_lookup coef ds gs ms ys k di gi mi yi :
  ds !! k = Some di → gs !! k = Some gi →
  ms !! k = Some mi → ys !! k = Some yi →
  map (λ v, v - Fin (_quantile self))%fl
    (zip_with fadd
       (zip_with fdiv
          (zip_with fmul (astype_float ds)
             (zip_with fsub (astype_float (le_coef ys coef)) gs))
          ms)
       gs) !! k
  = Some (b2f di * (b2f (fle yi coef) - gi) / mi + gi
          - Fin (_quantile self))%fl.
Proof.
  intros Hd Hg Hm Hy. unfold astype_float, le_coef.
  change (@map) with (@fmap list _).
  rewrite list_lookup_fmap, !lookup_zip_with, !list_lookup_fmap.
  rewrite Hd, Hg, Hm, Hy. reflexivity.
Qed.
End ScoreFacts.

(** C1.  On a bundle whose four arrays have length [n], [_compute_score]
    returns an array of length [n] whose entry [i] is
    [ind_d[i] * ((y[i] <= theta) - g[i]) / m[i] + g[i] - quantile]; with an
    index array [inds] (all indices in range) it returns the array of the
    same expression at the rows [inds], in the order of [inds]. *)
Theorem compute_score_elementwise {L} (self : DoubleMLPQ L)
    (psi : psi_elements) (n : nat) (theta : npfloat) :
  bundle_of_length n psi →
  (∃ s, _compute_score self psi theta None = Ok s ∧ length s = n ∧
     ∀ i di gi mi yi,
       ind_d psi !! i = Some di → g psi !! i = Some gi →
       m psi !! i = Some mi → psi_y psi !! i = Some yi →
       s !! i = Some (b2f di * (b2f (fle yi theta) - gi) / mi + gi
                      - Fin (_quantile self))%fl)
  ∧
  (∀ inds, Forall (λ i, i < n)%nat inds →
     ∃ s, _compute_score self psi theta (Some inds) = Ok s ∧
       length s = length inds ∧
       ∀ k i di gi mi yi,
         inds !! k = Some i →
         ind_d psi !! i = Some di → g psi !! i = Some gi →
         m psi !! i = Some mi → psi_y psi !! i = Some yi →
         s !! k = Some (b2f di * (b2f (fle yi theta) - gi) / mi + gi
                        - Fin (_quantile self))%fl).
Proof.
  intros (Ld & Lg & Lm & Ly). split.
  - eexists. split; [|split].
    + apply compute_score_selected with (inds := None); cbn;
        (reflexivity || lia).
    + unfold astype_float, le_coef.
      rewrite length_map, !length_zip_with, !length_map. lia.
    + intros i di gi mi yi. apply score_rows_lookup.
  - intros inds Hin.
    destruct (np_take_in_range (ind_d psi) inds) as [ds Hds];
      [by rewrite Ld|].
    destruct (np_take_in_range (g psi) inds) as [gs Hgs]; [by rewrite Lg|].
    destruct (np_take_in_range (m psi) inds) as [ms Hms]; [by rewrite Lm|].
    destruct (np_take_in_range (psi_y psi) inds) as [ys Hys];
      [by rewrite Ly|].
    pose proof (np_take_length _ _ _ Hds) as Kd.
    pose proof (np_take_length _ _ _ Hgs) as Kg.
    pose proof (np_take_length _ _ _ Hms) as Km.
    pose proof (np_take_length _ _ _ Hys) as Ky.
    eexists. split; [|split].
    + apply compute_score_selected with (inds := Some inds) (ds := ds)
        (gs := gs) (ms := ms) (ys := ys); cbn; (assumption || lia).
    + unfold astype_float, le_coef.
      rewrite length_map, !length_zip_with, !length_map. lia.
    + intros k i di gi mi yi Hk Hdi Hgi Hmi Hyi.
      apply score_rows_lookup.
      * by rewrite (np_take_lookup _ _ _ _ _ Hds Hk).
      * by rewrite (np_take_lookup _ _ _ _ _ Hgs Hk).
      * by rewrite (np_take_lookup _ _ _ _ _ Hms Hk).
      * by rewrite (np_take_lookup _ _ _ _ _ Hys Hk).
Qed.

Lemma compute_score_elementwise_witness :
  (∃ s, _compute_score (pq4 false) (result4 false).1 (Fin 2) None = Ok s ∧
     length s = 4%nat ∧
     ∀ i di gi mi yi,
       ind_d (result4 false).1 !! i = Some di →
       g (result4 false).1 !! i = Some gi →
       m (result4 false).1 !! i = Some mi →
       psi_y (result4 false).1 !! i = Some yi →
       s !! i = Some (b2f di * (b2f (fle yi (Fin 2)) - gi) / mi + gi
                      - Fin (_quantile (pq4 false)))%fl)
  ∧
  (∀ inds, Forall (λ i, i < 4)%nat inds →
     ∃ s, _compute_score (pq4 false) (result4 false).1 (Fin 2) (Some inds)
          = Ok s ∧
       length s = length inds ∧
       ∀ k i di gi mi yi,
         inds !! k = Some i →
         ind_d (result4 false).1 !! i = Some di →
         g (result4 false).1 !! i = Some gi →
         m (result4 false).1 !! i = Some mi →
         psi_y (result4 false).1 !! i = Some yi →
         s !! k = Some (b2f di * (b2f (fle yi (Fin 2)) - gi) / mi + gi
                        - Fin (_quantile (pq4 false)))%fl).
Proof.
  apply (compute_score_elementwise (pq4 false) (result4 false).1 4 (Fin 2)).
  repeat split; reflexivity.
Defined.

(** ** The derivative of the score *)

Lemma kernel_std_normal (u : npfloat) : kernel u = lift1 std_normal_pdf u.
Proof.
  destruct u as [|r]; cbn; [reflexivity|].
  unfold std_normal_pdf. do 3 f_equal. unfold Rdiv. ring.
Qed.

Section DerivFacts.
Context {L : Type}.
Variable self : DoubleMLPQ L.

Lemma compute_score_deriv_selected psi coef inds ds ms ys :
  select (ind_d psi) inds = Ok ds →
  select (m psi) inds = Ok ms →
  select (psi_y psi) inds = Ok ys →
  length ms = length ds → length ys = length ds →
  _compute_score_deriv self psi coef inds =
  Ok (map (λ v, v / _h self)%fl
        (zip_with fmul (score_weights self ds ms)
           (map kernel (map (λ yi, (yi - coef) / _h self)%fl ys)))).
Proof.
  intros Hd Hm Hy Lm Ly. unfold _compute_score_deriv, score_weights.
  rewrite Hd, Hm, Hy. cbn.
  rewrite ew2_same_length by (unfold astype_float; rewrite length_map; lia).
  cbn. rewrite ew2_same_length; [reflexivity|].
  unfold astype_float.
  destruct (_normalize self);
    rewrite ?length_map, ?length_zip_with, ?length_map; lia.
Qed.

Lemma deriv_rows_lookup coef ds ms ys k di mi yi :
  ds !! k = Some di → ms !! k = Some mi → ys !! k = Some yi →
  map (λ v, v / _h self)%fl
    (zip_with fmul (score_weights self ds ms)
       (map kernel (map (λ yi, (yi - coef) / _h self)%fl ys))) !! k
  = Some ((if _normalize self
           then b2f di / mi / np_mean (zip_with fdiv (astype_float ds) ms)
           else b2f di / mi)
          * (lift1 std_normal_pdf ((yi - coef) / _h self) / _h self))%fl.
Proof.
  intros Hd Hm Hy. unfold score_weights, astype_float.
  change (@map) with (@fmap list _).
  rewrite list_lookup_fmap, lookup_zip_with, !list_lookup_fmap, Hy. cbn.
  destruct (_normalize self).
  - rewrite list_lookup_fmap, lookup_zip_with, list_lookup_fmap, Hd. cbn.
    rewrite Hm. cbn. by rewrite fle_float_assoc, kernel_std_normal.
  - rewrite lookup_zip_with, list_lookup_fmap, Hd. cbn.
    rewrite Hm. cbn. by rewrite fle_float_assoc, kernel_std_normal.
Qed.
End DerivFacts.

(** ** Subset evaluation *)

Section Subset.
Context {L : Type}.
Variable self : DoubleMLPQ L.

Lemma compute_score_subset psi n coef inds :
  bundle_of_length n psi →
  _compute_score self psi coef (Some inds) =
  (s ← _compute_score self psi coef None; np_take s inds).
Proof.
  intros (Ld & Lg & Lm & Ly).
  rewrite (compute_score_selected self psi coef None
             (ind_d psi) (g psi) (m psi) (psi_y psi))
    by (cbn; (reflexivity || lia)).
  rewrite result_bind_ret.
  destruct (decide (Forall (λ i, i < n)%nat inds)) as [Hin|Hout].
  - destruct (np_take_in_range (ind_d psi) inds) as [ds Hds];
      [by rewrite Ld|].
    destruct (np_take_in_range (g psi) inds) as [gs Hgs]; [by rewrite Lg|].
    destruct (np_take_in_range (m psi) inds) as [ms Hms]; [by rewrite Lm|].
    destruct (np_take_in_range (psi_y psi) inds) as [ys Hys];
      [by rewrite Ly|].
    pose proof (np_take_length _ _ _ Hds) as Kd.
    pose proof (np_take_length _ _ _ Hgs) as Kg.
    pose proof (np_take_length _ _ _ Hms) as Km.
    pose proof (np_take_length _ _ _ Hys) as Ky.
    rewrite (compute_score_selected self psi coef (Some inds) ds gs ms ys)
      by (cbn; (assumption || lia)).
    unfold astype_float, le_coef.
    rewrite np_take_map.
    rewrite !np_take_zip_with, !np_take_map
      by (rewrite ?length_zip_with, ?length_map; lia).
    rewrite Hds, Hgs, Hms, Hys. reflexivity.
  - transitivity (@Raise (list npfloat) (IndexError "index is out of bounds")).
    + unfold _compute_score, select.
      by rewrite (np_take_out_of_range (ind_d psi)) by (by rewrite Ld).
    + symmetry. apply np_take_out_of_range.
      unfold astype_float, le_coef.
      rewrite length_map, !length_zip_with, !length_map.
      replace (_ `min` _)%nat with n by lia. done.
Qed.

Lemma compute_score_deriv_subset psi n coef inds :
  bundle_of_length n psi →
  _normalize self = false →
  _compute_score_deriv self psi coef (Some inds) =
  (s ← _compute_score_deriv self psi coef None; np_take s inds).
Proof.
  intros (Ld & Lg & Lm & Ly) Hnorm.
  rewrite (compute_score_deriv_selected self psi coef None
             (ind_d psi) (m psi) (psi_y psi))
    by (cbn; (reflexivity || lia)).
  rewrite result_bind_ret.
  destruct (decide (Forall (λ i, i < n)%nat inds)) as [Hin|Hout].
  - destruct (np_take_in_range (ind_d psi) inds) as [ds Hds];
      [by rewrite Ld|].
    destruct (np_take_in_range (m psi) inds) as [ms Hms]; [by rewrite Lm|].
    destruct (np_take_in_range (psi_y psi) inds) as [ys Hys];
      [by rewrite Ly|].
    pose proof (np_take_length _ _ _ Hds) as Kd.
    pose proof (np_take_length _ _ _ Hms) as Km.
    pose proof (np_take_length _ _ _ Hys) as Ky.
    rewrite (compute_score_deriv_selected self psi coef (Some inds) ds ms ys)
      by (cbn; (assumption || lia)).
    unfold score_weights. rewrite Hnorm. unfold astype_float.
    rewrite np_take_map.
    rewrite !np_take_zip_with, !np_take_map
      by (rewrite ?length_zip_with, ?length_map; lia).
    rewrite Hds, Hms, Hys. reflexivity.
  - transitivity (@Raise (list npfloat) (IndexError "index is out of bounds")).
    + unfold _compute_score_deriv, select.
      by rewrite (np_take_out_of_range (ind_d psi)) by (by rewrite Ld).
    + symmetry. apply np_take_out_of_range.
      unfold score_weights. rewrite Hnorm. unfold astype_float.
      rewrite length_map, !length_zip_with, !length_map.
      replace (_ `min` _)%nat with n by lia. done.
Qed.
End Subset.

Lemma normalized_deriv_subset_differs :
  _compute_score_deriv (pq4 false) psi2 (Fin 0) (Some [0%nat]) ≠
  (s ← _compute_score_deriv (pq4 false) psi2 (Fin 0) None; np_take s [0%nat]).
Proof.
  unfold _compute_score_deriv, kernel. run_py.
  intros [= Heq].
  match type of Heq with context [exp ?e / sqrt ?v] =>
    assert (0 < exp e / sqrt v) as Hpos
      by (apply Rdiv_lt_0_compat;
          [apply exp_pos | apply sqrt_lt_R0; pose proof PI_RGT_0; lra]);
    set (K := exp e / sqrt v) in *
  end.
  lra.
Qed.

(** C10.  On a bundle whose arrays have length [n], the score evaluated on
    the rows [inds] is the full-sample score restricted to [inds] (both
    raise when an index is out of range), and so is the derivative when the
    weights are not normalized.  With normalization the derivative on a
    subset divides the weights by the mean of the weights of the subset; on
    the bundle [psi2] the evaluation on row 0 differs from the restriction
    of the full evaluation. *)
Theorem subset_evaluation_is_restriction {L} (self : DoubleMLPQ L)
    (psi : psi_elements) (n : nat) (theta : npfloat) (inds : list nat) :
  bundle_of_length n psi →
  _compute_score self psi theta (Some inds) =
    (s ← _compute_score self psi theta None; np_take s inds)
  ∧ (_normalize self = false →
     _compute_score_deriv self psi theta (Some inds) =
       (s ← _compute_score_deriv self psi theta None; np_take s inds))
  ∧ (_normalize self = true →
     ∀ ds ms ys,
       np_take (ind_d psi) inds = Ok ds → np_take (m psi) inds = Ok ms →
       np_take (psi_y psi) inds = Ok ys →
       ∃ s, _compute_score_deriv self psi theta (Some inds) = Ok s ∧
         ∀ k di mi yi,
           ds !! k = Some di → ms !! k = Some mi → ys !! k = Some yi →
           s !! k =
           Some (b2f di / mi / np_mean (zip_with fdiv (astype_float ds) ms)
                 * (lift1 std_normal_pdf ((yi - theta) / _h self)
                    / _h self))%fl)
  ∧ (_normalize (pq4 false) = true ∧
     _compute_score_deriv (pq4 false) psi2 (Fin 0) (Some [0%nat]) ≠
       (s ← _compute_score_deriv (pq4 false) psi2 (Fin 0) None;
        np_take s [0%nat])).
Proof.
  intros Hlen. split; [|split; [|split; [|split]]].
  - by apply compute_score_subset with (n := n).
  - intros Hnorm. by apply compute_score_deriv_subset with (n := n).
  - intros Hnorm ds ms ys Hds Hms Hys.
    pose proof (np_take_length _ _ _ Hds) as Kd.
    pose proof (np_take_length _ _ _ Hms) as Km.
    pose proof (np_take_length _ _ _ Hys) as Ky.
    eexists. split.
    + apply compute_score_deriv_selected with (inds := Some inds) (ds := ds)
        (ms := ms) (ys := ys); cbn; (assumption || lia).
    + intros k di mi yi Hdi Hmi Hyi.
      rewrite (deriv_rows_lookup self theta ds ms ys k di mi yi)
        by assumption.
      by rewrite Hnorm.
  - reflexivity.
  - apply normalized_deriv_subset_differs.
Qed.

Lemma subset_evaluation_is_restriction_witness :
  _compute_score pq4_unnormalized psi2 (Fin 0) (Some [1%nat; 0%nat]) =
    (s ← _compute_score pq4_unnormalized psi2 (Fin 0) None;
     np_take s [1%nat; 0%nat])
  ∧ _compute_score_deriv pq4_unnormalized psi2 (Fin 0) (Some [1%nat; 0%nat]) =
    (s ← _compute_score_deriv pq4_unnormalized psi2 (Fin 0) None;
     np_take s [1%nat; 0%nat]).
Proof.
  destruct (subset_evaluation_is_restriction pq4_unnormalized psi2 2 (Fin 0)
              [1%nat; 0%nat]) as (Hscore & Hderiv & _).
  - repeat split; reflexivity.
  - split; [exact Hscore | apply Hderiv; reflexivity].
Defined.

(** ** Construction: what a constructed object satisfies *)

Lemma check_data_ok obj data :
  _check_data obj = Ok data →
  obj = DataObj data ∧ z_cols data = None ∧
  Forall (λ di, di = 0%Z ∨ di = 1%Z) (d data).
Proof.
  destruct obj as [data'|v]; cbn; [|discriminate].
  unfold _check_contains_iv, _check_zero_one_treatment.
  destruct (z_cols data') eqn:Hz; cbn; [discriminate|].
  destruct (forallb _ (d data')) eqn:Hall; cbn; [|discriminate].
  intros [= <-]. repeat split; [done|].
  apply Forall_forall. intros di Hdi.
  rewrite forallb_forall in Hall.
  apply list_elem_of_In in Hdi.
  apply Hall in Hdi. by apply bool_decide_eq_true_1 in Hdi.
Qed.

Lemma check_score_ok v : _check_score v = Ok tt → v = PyStr "PQ".
Proof.
  destruct v; cbn; try discriminate.
  destruct (decide _) as [->|]; [done | discriminate].
Qed.

Lemma check_quantile_ok v q :
  _check_quantile v = Ok q → v = PyFloat (Fin q) ∧ 0 < q < 1.
Proof.
  destruct v as [| | |[|r]|]; cbn; try discriminate.
  case_bool_decide; [|discriminate]. by intros [= <-].
Qed.

Lemma check_treatment_ok v t :
  _check_treatment v = Ok t → v = PyInt t ∧ (t = 0%Z ∨ t = 1%Z).
Proof.
  destruct v; cbn; try discriminate.
  case_bool_decide; [|discriminate]. by intros [= <-].
Qed.

Lemma check_bandwidth_ok v bw :
  _check_bandwidth v = Ok bw → v = PyFloat bw ∧ fle bw (Fin 0) = false.
Proof.
  destruct v; cbn; try discriminate.
  destruct (fle _ _) eqn:Hle; [discriminate|]. by intros [= <-].
Qed.

Lemma check_trimming_ok rule thr r t :
  _check_trimming rule thr = Ok (r, t) →
  rule = PyStr "truncate" ∧ thr = PyFloat (Fin t) ∧ 0 < t < 1 / 2 ∧
  r = truncate.
Proof.
  destruct rule; cbn; try discriminate.
  destruct (decide _) as [->|]; [|discriminate].
  destruct thr as [| | |[|u]|]; try discriminate.
  case_bool_decide; [|discriminate]. by intros [= <- <-].
Qed.

Section InitFacts.
Context {L : Type} `{Learner L} `{Env}.

Lemma init_ok_inv (args : init_args L) (self : DoubleMLPQ L) :
  DoubleMLPQ_init args = Ok self →
  ∃ data q t bw nz thr,
    obj_dml_data args = DataObj data ∧
    cluster_cols data = None ∧ z_cols data = None ∧
    Forall (λ di, di = 0%Z ∨ di = 1%Z) (d data) ∧
    quantile args = PyFloat (Fin q) ∧ 0 < q < 1 ∧
    treatment args = PyInt t ∧ (t = 0%Z ∨ t = 1%Z) ∧
    (h args = PyNone ∧ bw = np_power_n_obs (n_obs data)
     ∨ h args = PyFloat bw) ∧
    fle bw (Fin 0) = false ∧
    normalize args = PyBool nz ∧
    trimming_rule args = PyStr "truncate" ∧
    trimming_threshold args = PyFloat (Fin thr) ∧ 0 < thr < 1 / 2 ∧
    _dml_data self = data ∧ n_folds self = arg_n_folds args ∧
    _quantile self = q ∧ _treatment self = t ∧ _h self = bw ∧
    _normalize self = nz ∧ _trimming_rule self = truncate ∧
    _trimming_threshold self = thr ∧
    _coef_start_val self = np_quantile (y data) q ∧
    _learner_ml_g self = clone (ml_g args) ∧
    _learner_ml_m self = clone (ml_m args).
Proof.
  unfold DoubleMLPQ_init. intros Hinit.
  apply result_bind_ok in Hinit as (h' & Hh & Hinit).
  apply result_bind_ok in Hinit as ([] & Hcl & Hinit).
  apply result_bind_ok in Hinit as (data & Hdata & Hinit).
  apply result_bind_ok in Hinit as ([] & Hscore & Hinit).
  apply result_bind_ok in Hinit as (q & Hq & Hinit).
  apply result_bind_ok in Hinit as (t & Ht & Hinit).
  apply result_bind_ok in Hinit as (bw & Hbw & Hinit).
  apply result_bind_ok in Hinit as (nz & Hnz & Hinit).
  apply result_bind_ok in Hinit as (y_min & Hmin & Hinit).
  apply result_bind_ok in Hinit as (y_max & Hmax & Hinit).
  apply result_bind_ok in Hinit as ([rule thr] & Htrim & Hinit).
  apply result_bind_ok in Hinit as (smpls & Hsmpls & Hinit).
  injection Hinit as <-.
  apply check_data_ok in Hdata as (Hobj & Hz & Hd).
  apply check_quantile_ok in Hq as (Hq & Hqr).
  apply check_treatment_ok in Ht as (Ht & Htr).
  apply check_bandwidth_ok in Hbw as (-> & Hbw).
  apply check_trimming_ok in Htrim as (Hrule & Hthr & Hthrr & ->).
  exists data, q, t, bw, nz, thr. cbn.
  rewrite Hobj in Hcl, Hh. cbn in Hcl, Hh.
  repeat split; try assumption; try tauto.
  - case_bool_decide as Hc; [discriminate|].
    destruct (cluster_cols data); [|done]. by destruct Hc.
  - destruct (h args); cbn in Hh; try (injection Hh as <-; by right);
      try discriminate.
    left. by injection Hh as <-.
  - by destruct (normalize args); try discriminate; injection Hnz as ->.
Qed.

End InitFacts.

(** ** Construction on explicit data *)


Lemma init_args4 (warm : bool) (bw : npfloat) :
  fle bw (Fin 0) = false →
  DoubleMLPQ_init (H0 := simple_env) (args4 warm (PyFloat bw))
  = Ok (pq4_with warm bw).
Proof.
  intros Hbw. unfold DoubleMLPQ_init. cbn.
  rewrite Hbw. unfold _check_zero_one_treatment. cbn.
  repeat (decide_step; cbn).
  repeat min_max_step.
  unfold pq4_with. do 3 f_equal. lra.
Qed.

Lemma np_power_n_obs_positive (n : nat) : fle (np_power_n_obs n) (Fin 0) = false.
Proof.
  cbn. apply bool_decide_eq_false_2.
  unfold Rpower. pose proof (exp_pos (- (2 / 10) * ln (INR n))). lra.
Qed.

Lemma init_args4_default (warm : bool) :
  DoubleMLPQ_init (H0 := simple_env) (args4 warm PyNone)
  = Ok (pq4_with warm (np_power_n_obs 4)).
Proof.
  rewrite <- (init_args4 warm (np_power_n_obs 4) (np_power_n_obs_positive 4)).
  reflexivity.
Qed.

(** C2.  On a bundle whose arrays have length [n], [_compute_score_deriv]
    returns an array of length [n] whose entry [i] is the weight
    [ind_d[i] / m[i]] (divided by the sample mean of these weights when
    [normalize] is set, as it is otherwise) times the Gaussian kernel
    density [phi((y[i] - theta) / h) / h], with [h] the stored bandwidth;
    an object constructed with [h = None] stores the bandwidth
    [n_obs ^ -0.2]. *)
Theorem compute_score_deriv_kernel {L} `{Learner L} `{Env}
    (self : DoubleMLPQ L) (psi : psi_elements) (n : nat) (theta : npfloat) :
  bundle_of_length n psi →
  (∃ s, _compute_score_deriv self psi theta None = Ok s ∧ length s = n ∧
     ∀ i di mi yi,
       ind_d psi !! i = Some di → m psi !! i = Some mi →
       psi_y psi !! i = Some yi →
       s !! i =
       Some ((if _normalize self
              then b2f di / mi
                   / np_mean (zip_with fdiv (astype_float (ind_d psi)) (m psi))
              else b2f di / mi)
             * (lift1 std_normal_pdf ((yi - theta) / _h self) / _h self))%fl)
  ∧
  (∀ (args : init_args L) (obj : DoubleMLPQ L),
     h args = PyNone → DoubleMLPQ_init args = Ok obj →
     _h obj = Fin (Rpower (INR (n_obs (_dml_data obj))) (-0.2))).
Proof.
  intros (Ld & Lg & Lm & Ly). split.
  - eexists. split; [|split].
    + apply compute_score_deriv_selected with (inds := None); cbn;
        (reflexivity || lia).
    + unfold score_weights, astype_float.
      destruct (_normalize self);
        repeat first [rewrite length_map | rewrite length_zip_with]; lia.
    + intros i di mi yi. apply deriv_rows_lookup.
  - intros args obj Hnone Hinit.
    apply init_ok_inv in Hinit
      as (data & q & t & bw & nz & thr & Hobj & Hcl & Hz & Hd & Hq & Hqr
          & Ht & Htr & Hh & Hbw & Hnz & Hrule & Hthr & Hthrr & Hdata & _
          & _ & _ & Hbwo & _).
    rewrite Hbwo, Hdata.
    destruct Hh as [[_ ->]|Hh]; [|congruence].
    unfold np_power_n_obs. f_equal.
    replace (- (2 / 10)) with (-0.2) by lra. reflexivity.
Qed.

Lemma compute_score_deriv_kernel_witness :
  (∃ s, _compute_score_deriv (pq4 false) psi2 (Fin 0) None = Ok s ∧
     length s = 2%nat ∧
     ∀ i di mi yi,
       ind_d psi2 !! i = Some di → m psi2 !! i = Some mi →
       psi_y psi2 !! i = Some yi →
       s !! i =
       Some ((if _normalize (pq4 false)
              then b2f di / mi
                   / np_mean (zip_with fdiv (astype_float (ind_d psi2)) (m psi2))
              else b2f di / mi)
             * (lift1 std_normal_pdf ((yi - Fin 0) / _h (pq4 false))
                / _h (pq4 false)))%fl)
  ∧
  (∃ obj, DoubleMLPQ_init (H0 := simple_env) (args4 false PyNone) = Ok obj ∧
     _h obj = Fin (Rpower (INR 4) (-0.2))).
Proof.
  destruct (compute_score_deriv_kernel (H0 := simple_env)
              (pq4 false) psi2 2 (Fin 0)) as [Hderiv Hdefault].
  - repeat split; reflexivity.
  - split; [exact Hderiv|].
    exists (pq4_with false (np_power_n_obs 4)). split.
    + apply init_args4_default.
    + apply (Hdefault (args4 false PyNone)); [reflexivity|].
      apply init_args4_default.
Defined.

(** C7.  The constructor accepts a NaN bandwidth, although NaN is not a
    positive float: [_check_bandwidth] tests [bandwidth <= 0], which is
    false for NaN.  The configuration with [h = float('nan')] counts as
    invalid, and the constructor returns an object whose bandwidth is
    NaN. *)
Theorem init_accepts_nan_bandwidth :
  invalid_configuration (args4 false (PyFloat NaN))
  ∧ DoubleMLPQ_init (H0 := simple_env) (args4 false (PyFloat NaN))
    = Ok (pq4_with false NaN)
  ∧ _h (pq4_with false NaN) = NaN.
Proof.
  split; [|split].
  - right. right. left. split; [discriminate|].
    intros (r & Hr & _). discriminate.
  - by apply init_args4.
  - reflexivity.
Qed.

(** ** Tuning *)

(** C8.  Whatever the tuning arguments, [_nuisance_tuning] raises
    [NotImplementedError] and the object after the call is the object
    before it. *)
Theorem nuisance_tuning_not_implemented {L S P M : Type}
    (self : DoubleMLPQ L) (smpls : S) (param_grids : P) (scoring_methods : M)
    (n_folds_tune : Z) (n_jobs_cv : option Z) (search_mode : string)
    (n_iter_randomized_search : Z) :
  _nuisance_tuning smpls param_grids scoring_methods n_folds_tune n_jobs_cv
    search_mode n_iter_randomized_search self
  = (Raise (NotImplementedError
              "Nuisance tuning not implemented for potential quantiles."),
     self).
Proof. reflexivity. Qed.

(** ** Trimming *)

Section Clip.
Variable tau : R.
Hypothesis tau_range : 0 < tau < 1 / 2.

Lemma clip_range (r : R) :
  ∃ r', clip tau (1 - tau) (Fin r) = Fin r' ∧ tau <= r' <= 1 - tau.
Proof.
  unfold clip, fgt, flt.
  case_bool_decide; [exists tau; split; [done|lra]|].
  case_bool_decide; [exists (1 - tau); split; [done|lra]|].
  exists r. split; [done|lra].
Qed.

Lemma clip_idempotent (v : npfloat) :
  clip tau (1 - tau) (clip tau (1 - tau) v) = clip tau (1 - tau) v.
Proof.
  destruct v as [|r]; [reflexivity|].
  destruct (clip_range r) as (r' & -> & Hr').
  unfold clip, fgt, flt.
  rewrite !bool_decide_eq_false_2 by lra. reflexivity.
Qed.


Lemma trimm_truncate (p : list npfloat) :
  _trimm p truncate tau = Ok (map (clip tau (1 - tau)) p).
Proof. unfold _trimm. by rewrite bool_decide_eq_true_2. Qed.
End Clip.

(** C9.  For a threshold [tau] in (0, 0.5), trimming with the rule
    'truncate' returns an array of the same length, whose entries lie in
    [[tau, 1 - tau]] when the entries of the input are numbers, and trimming
    the result again leaves it as it is. *)
Theorem trimm_range_idempotent (p : list npfloat) (tau : R) :
  0 < tau < 1 / 2 →
  ∃ q, _trimm p truncate tau = Ok q ∧ length q = length p ∧
    (Forall finite p →
     Forall (λ v, ∃ r, v = Fin r ∧ tau <= r <= 1 - tau) q) ∧
    _trimm q truncate tau = Ok q.
Proof.
  intros Htau. exists (map (clip tau (1 - tau)) p).
  split; [by apply trimm_truncate|]. split; [by rewrite length_map|]. split.
  - intros Hfin. apply Forall_forall. intros v Hv.
    apply list_elem_of_In, in_map_iff in Hv as (u & <- & Hu).
    apply list_elem_of_In in Hu.
    rewrite Forall_forall in Hfin. destruct (Hfin u Hu) as [r ->].
    by apply clip_range.
  - rewrite trimm_truncate by done. f_equal.
    rewrite map_map. apply map_ext. intros v. by apply clip_idempotent.
Qed.

Lemma trimm_range_idempotent_witness :
  ∃ q, _trimm [Fin 0; Fin (1 / 2); Fin 1] truncate (1 / 10) = Ok q ∧
    length q = 3%nat ∧
    (Forall finite [Fin 0; Fin (1 / 2); Fin 1] →
     Forall (λ v, ∃ r, v = Fin r ∧ 1 / 10 <= r <= 1 - 1 / 10) q) ∧
    _trimm q truncate (1 / 10) = Ok q.
Proof.
  apply (trimm_range_idempotent [Fin 0; Fin (1 / 2); Fin 1] (1 / 10)). lra.
Defined.



(** ** Assignment through an index array *)

Lemma assign_zip_spec {A} (inds : list nat) :
  ∀ (a : list A) (vals : list A) (a' : list A),
    assign_zip a inds vals = Ok a' →
    length a' = length a ∧
    ∀ j, (j ∈ inds → ∃ v, v ∈ vals ∧ a' !! j = Some v)
         ∧ (j ∉ inds → a' !! j = a !! j).
Proof.
  induction inds as [|i inds IH]; intros a vals a'; cbn.
  - intros [= <-]. split; [done|]. intros j. split; [|done].
    intros Hj. by apply elem_of_nil in Hj.
  - destruct vals as [|v vals]; [discriminate|].
    destruct (decide (i < length a)%nat) as [Hi|]; [|discriminate].
    intros Hrec. apply IH in Hrec as [Hlen Hrec].
    rewrite length_insert in Hlen. split; [done|].
    intros j. destruct (Hrec j) as [Hin Hout]. split.
    + intros Hj. destruct (decide (j ∈ inds)) as [Hj'|Hj'].
      * destruct (Hin Hj') as (u & Hu & Hlook).
        exists u. split; [by right|done].
      * apply elem_of_cons in Hj as [->|]; [|done].
        exists v. split; [by left|].
        rewrite (Hout Hj'). by apply list_lookup_insert_eq.
    + intros Hj. apply not_elem_of_cons in Hj as [Hne Hj].
      rewrite (Hout Hj). by apply list_lookup_insert_ne.
Qed.

Lemma assign_at_spec {A} (a : list A) inds vals a' :
  assign_at a inds vals = Ok a' →
  length a' = length a ∧
  ∀ j, (j ∈ inds → ∃ v, v ∈ vals ∧ a' !! j = Some v)
       ∧ (j ∉ inds → a' !! j = a !! j).
Proof.
  unfold assign_at. destruct (decide _) as [_|_].
  - apply assign_zip_spec.
  - destruct vals as [|v [|]]; try discriminate.
    intros Hrec. apply assign_zip_spec in Hrec as [Hlen Hrec].
    split; [done|]. intros j. destruct (Hrec j) as [Hin Hout].
    split; [|done]. intros Hj.
    destruct (Hin Hj) as (u & Hu & Hlook).
    apply elem_of_replicate in Hu as [-> _].
    exists v. split; [by left|done].
Qed.

Lemma predict_zero_one_finite {L} `{Learner L} (learner : L) X p :
  _predict_zero_one_propensity learner X = Ok p → Forall finite p.
Proof.
  unfold _predict_zero_one_propensity.
  intros (proba & _ & [= <-])%result_bind_ok.
  apply Forall_forall. intros v Hv.
  apply list_elem_of_In, in_map_iff in Hv as (u & <- & _). by eexists.
Qed.

(** ** Method calls that return *)

Lemma meth_bind_ok {L A B} (c : meth L A) (f : A → meth L B) s b s' :
  (c ≫= f) s = (Ok b, s') → ∃ a s1, c s = (Ok a, s1) ∧ f a s1 = (Ok b, s').
Proof.
  unfold mbind, meth_bind. destruct (c s) as [[a|e] s1]; [eauto|discriminate].
Qed.

Lemma lift_result_ok {L A} (r : result A) (s s' : DoubleMLPQ L) a :
  lift_result r s = (Ok a, s') → r = Ok a ∧ s' = s.
Proof. unfold lift_result. by intros [= -> ->]. Qed.

Lemma get_self_ok {L} (s s' a : DoubleMLPQ L) :
  get_self s = (Ok a, s') → a = s ∧ s' = s.
Proof. unfold get_self. by intros [= -> ->]. Qed.

Lemma same_config_refl {L} (s : DoubleMLPQ L) : same_config s s.
Proof. by repeat split. Qed.

Lemma same_config_trans {L} (s1 s2 s3 : DoubleMLPQ L) :
  same_config s1 s2 → same_config s2 s3 → same_config s1 s3.
Proof.
  unfold same_config. intros ? ?. destruct_and!.
  repeat split; congruence.
Qed.

Lemma set_coef_start_val_ok {L} v (s s' : DoubleMLPQ L) u :
  set_coef_start_val v s = (Ok u, s') →
  _coef_start_val s' = v ∧ _learner_ml_g s' = _learner_ml_g s ∧
  _learner_ml_m s' = _learner_ml_m s ∧ same_config s s'.
Proof. unfold set_coef_start_val. intros [= _ <-]. by repeat split. Qed.

Lemma fit_ml_g_ok {L} `{Learner L} X labels (s s' : DoubleMLPQ L) u :
  fit_ml_g X labels s = (Ok u, s') →
  fit (_learner_ml_g s) X labels = Ok (_learner_ml_g s') ∧
  _learner_ml_m s' = _learner_ml_m s ∧
  _coef_start_val s' = _coef_start_val s ∧ same_config s s'.
Proof.
  unfold fit_ml_g. intros Hf.
  apply meth_bind_ok in Hf as (a & s1 & [-> ->]%get_self_ok & Hf).
  apply meth_bind_ok in Hf as (fitted & s1 & [Hfit ->]%lift_result_ok & Hf).
  unfold set_learner_ml_g in Hf. injection Hf as _ <-. by repeat split.
Qed.

Lemma fit_ml_m_ok {L} `{Learner L} X labels (s s' : DoubleMLPQ L) u :
  fit_ml_m X labels s = (Ok u, s') →
  fit (_learner_ml_m s) X labels = Ok (_learner_ml_m s') ∧
  _learner_ml_g s' = _learner_ml_g s ∧
  _coef_start_val s' = _coef_start_val s ∧ same_config s s'.
Proof.
  unfold fit_ml_m. intros Hf.
  apply meth_bind_ok in Hf as (a & s1 & [-> ->]%get_self_ok & Hf).
  apply meth_bind_ok in Hf as (fitted & s1 & [Hfit ->]%lift_result_ok & Hf).
  unfold set_learner_ml_m in Hf. injection Hf as _ <-. by repeat split.
Qed.

(** Splits the first call off a sequence of calls that returned. *)
Ltac peel H :=
  let a := fresh "a" in
  let s := fresh "s" in
  let E := fresh "E" in
  apply meth_bind_ok in H as (a & s & E & H);
  first [ apply get_self_ok in E as [-> ->]
        | apply set_coef_start_val_ok in E as (? & ? & ? & ?)
        | apply fit_ml_g_ok in E as (? & ? & ? & ?)
        | apply fit_ml_m_ok in E as (? & ? & ? & ?)
        | apply lift_result_ok in E as [E ->] ];
  try match type of H with
      | (let '(_, _) := ?p in _) _ = _ => destruct p
      end.

(** ** One fold of the nuisance estimation *)

Section NuisanceFacts.
Context {L : Type} `{Learner L} `{Env}.

(** What a fold that returns has done: it wrote predictions, which are
    numbers, at the test indices of fold [i]; it replaced the stored start
    value by the root the solver returned, the search being seeded with
    the start value stored before; it fitted the two stored learners in
    place and predicted with them. *)
Lemma nuisance_fold_ok smpls x y d i gh mh s gh' mh' s' :
  nuisance_fold smpls x y d i (gh, mh) s = (Ok (gh', mh'), s') →
  ∃ train test gp mp,
    smpls !! i = Some (train, test) ∧
    Forall finite gp ∧ Forall finite mp ∧
    assign_at gh test gp = Ok gh' ∧ assign_at mh test mp = Ok mh' ∧
    same_config s s' ∧
    (∃ f flag bracket,
       _get_bracket_guess f (_coef_start_val s) (_coef_bounds s)
       = Ok (flag, bracket) ∧
       root_scalar f bracket = Ok (_coef_start_val s')) ∧
    (∃ X labels, fit (_learner_ml_g s) X labels = Ok (_learner_ml_g s') ∧
       ∃ X', _predict_zero_one_propensity (_learner_ml_g s') X' = Ok gp) ∧
    (∃ X labels, fit (_learner_ml_m s) X labels = Ok (_learner_ml_m s') ∧
       ∃ X', _predict_zero_one_propensity (_learner_ml_m s') X' = Ok mp).
Proof.
  unfold nuisance_fold. intros Hf.
  repeat peel Hf.
  unfold mret, meth_ret in Hf. injection Hf as <- <- <-.
  exists l, l0, a16, a22. split_and!.
  - unfold py_index in E. by destruct (smpls !! i); simplify_eq.
  - eapply predict_zero_one_finite, E17.
  - eapply predict_zero_one_finite, E22.
  - exact E18.
  - exact E23.
  - eauto using same_config_trans.
  - eexists _, b, p. split; [exact E9|].
    rewrite H11, H7, H1. exact E10.
  - eexists a12, _. split.
    + rewrite H10, <- H2. exact H5.
    + exists a15. rewrite H10. exact E17.
  - eexists a18, a19. split.
    + rewrite <- H3, <- H6. exact H9.
    + exists a21. exact E22.
Qed.
End NuisanceFacts.

Lemma assign_at_finite (a : list npfloat) inds vals a' :
  assign_at a inds vals = Ok a' → Forall finite vals →
  length a' = length a ∧
  ∀ j, (j ∈ inds → finite_at a' j)
       ∧ (j ∉ inds → a' !! j = a !! j)
       ∧ (finite_at a j → finite_at a' j).
Proof.
  intros [Hlen Hspec]%assign_at_spec Hfin. split; [done|].
  intros j. destruct (Hspec j) as [Hin Hout].
  assert (j ∈ inds → finite_at a' j) as Hin'.
  { intros Hj. destruct (Hin Hj) as (v & Hv & Hlook).
    rewrite Forall_forall in Hfin. destruct (Hfin v Hv) as [r ->].
    by exists r. }
  split_and!; [done|done|].
  intros Hj. destruct (decide (j ∈ inds)) as [Hmem|Hmem]; [auto|].
  unfold finite_at. by rewrite (Hout Hmem).
Qed.

(** ** The loop over the folds *)

Section LoopFacts.
Context {L : Type} `{Learner L} `{Env}.
Variables (smpls : list (list nat * list nat)) (x : list Row)
  (y : list npfloat) (d : list Z).

Lemma nuisance_loop_fill k :
  ∀ a gh mh s gh' mh' s',
    for_each (seq a k) (nuisance_fold smpls x y d) (gh, mh) s
    = (Ok (gh', mh'), s') →
    length gh' = length gh ∧ length mh' = length mh ∧ same_config s s' ∧
    ∀ j,
      (tested_in smpls a k j → finite_at gh' j ∧ finite_at mh' j)
      ∧ (finite_at gh j → finite_at gh' j)
      ∧ (finite_at mh j → finite_at mh' j)
      ∧ (¬ tested_in smpls a k j → gh' !! j = gh !! j ∧ mh' !! j = mh !! j).
Proof.
  induction k as [|k IH]; intros a gh mh s gh' mh' s'; cbn.
  - unfold mret, meth_ret. intros [= <- <- <-].
    split_and!; [done|done|apply same_config_refl|].
    intros j. split_and!; [|done|done|done].
    intros (i & fold & Hi & _). lia.
  - intros Hloop.
    apply meth_bind_ok in Hloop as ([g1 m1] & s1 & Hfold & Hloop).
    apply nuisance_fold_ok in Hfold
      as (train & test & gp & mp & Hlook & Hgp & Hmp & Hg1 & Hm1 & Hcfg & _).
    apply IH in Hloop as (Lg & Lm & Hcfg' & Hrest).
    destruct (assign_at_finite _ _ _ _ Hg1 Hgp) as [Lg1 Hg1'].
    destruct (assign_at_finite _ _ _ _ Hm1 Hmp) as [Lm1 Hm1'].
    split_and!; [congruence|congruence|eauto using same_config_trans|].
    intros j.
    destruct (Hrest j) as (Hcov & Hkeepg & Hkeepm & Hout).
    destruct (Hg1' j) as (Hgin & Hgout & Hgkeep).
    destruct (Hm1' j) as (Hmin & Hmout & Hmkeep).
    split_and!.
    + intros (i & fold & Hi & Hfold & Hj).
      destruct (decide (i = a)) as [->|Hne].
      * rewrite Hlook in Hfold. injection Hfold as <-. cbn in Hj. auto.
      * apply Hcov. exists i, fold. split_and!; [lia|lia|done|done].
    + auto.
    + auto.
    + intros Hnot.
      assert (j ∉ test) as Hj.
      { intros Hj. apply Hnot. exists a, (train, test).
        split_and!; [lia|lia|done|done]. }
      assert (¬ tested_in smpls (S a) k j) as Hnot'.
      { intros (i & fold & Hi & Hfold & Hmem). apply Hnot.
        exists i, fold. split_and!; [lia|lia|done|done]. }
      destruct (Hout Hnot') as [-> ->]. auto.
Qed.


(** The stored learners after the loop are the stored learners fitted
    once per fold, each fit starting from the object the previous fold
    left. *)
Lemma nuisance_loop_learners k :
  ∀ a acc s acc' s',
    for_each (seq a k) (nuisance_fold smpls x y d) acc s = (Ok acc', s') →
    ∃ gs ms : list L,
      length gs = k ∧ length ms = k ∧
      last (_learner_ml_g s :: gs) = Some (_learner_ml_g s') ∧
      last (_learner_ml_m s :: ms) = Some (_learner_ml_m s') ∧
      (∀ i l l', (_learner_ml_g s :: gs) !! i = Some l →
         gs !! i = Some l' → ∃ X labels, fit l X labels = Ok l') ∧
      (∀ i l l', (_learner_ml_m s :: ms) !! i = Some l →
         ms !! i = Some l' → ∃ X labels, fit l X labels = Ok l').
Proof.
  induction k as [|k IH]; intros a acc s acc' s'; cbn.
  - unfold mret, meth_ret. intros [= <- <-].
    exists [], []. split_and!; try done.
  - intros Hloop.
    apply meth_bind_ok in Hloop as ([g1 m1] & s1 & Hfold & Hloop).
    destruct acc as [gh mh].
    apply nuisance_fold_ok in Hfold
      as (_ & _ & _ & _ & _ & _ & _ & _ & _ & _ & _
          & (Xg & lg & Hfitg & _) & (Xm & lm & Hfitm & _)).
    apply IH in Hloop as (gs & ms & Lgs & Lms & Hlg & Hlm & Hg & Hm).
    exists (_learner_ml_g s1 :: gs), (_learner_ml_m s1 :: ms).
    split_and!.
    + cbn. by f_equal.
    + cbn. by f_equal.
    + by rewrite last_cons_cons.
    + by rewrite last_cons_cons.
    + intros [|i] l l'; cbn.
      * intros [= <-] [= <-]. eauto.
      * apply Hg.
    + intros [|i] l l'; cbn.
      * intros [= <-] [= <-]. eauto.
      * apply Hm.
Qed.
End LoopFacts.

(** ** The nuisance estimation as a whole *)

Lemma final_propensity_lookup {L} (self : DoubleMLPQ L) a a' :
  final_propensity self a = Ok a' →
  length a' = length a ∧
  ∀ j, (finite_at a j → finite_at a' j)
       ∧ (a !! j = Some NaN → a' !! j = Some NaN).
Proof.
  unfold final_propensity, _trimm.
  destruct (_trimming_rule self); [|discriminate].
  case_bool_decide; [|discriminate]. intros [= <-].
  change (@map) with (@fmap list _).
  split.
  - unfold one_minus. destruct (decide _); by rewrite ?length_fmap.
  - intros j. unfold finite_at, one_minus.
    change (@map) with (@fmap list _).
    split.
    + intros [r Hr]. destruct (decide _).
      * rewrite !list_lookup_fmap, Hr. cbn.
        destruct (clip_range (_trimming_threshold self) ltac:(done) (1 - r))
          as (r' & -> & _). eauto.
      * rewrite list_lookup_fmap, Hr. cbn.
        destruct (clip_range (_trimming_threshold self) ltac:(done) r)
          as (r' & -> & _). eauto.
    + intros Hnan. destruct (decide _).
      * by rewrite !list_lookup_fmap, Hnan.
      * by rewrite list_lookup_fmap, Hnan.
Qed.

Section NuisanceEstFacts.
Context {L : Type} `{Learner L} `{Env}.

Lemma nuisance_est_ok smpls n_jobs_cv return_models
    (self self' : DoubleMLPQ L) psi preds :
  _nuisance_est smpls n_jobs_cv return_models self = (Ok (psi, preds), self') →
  ∃ x' y' d' gh mh mt,
    for_each (seq 0 (n_folds self)) (nuisance_fold smpls x' y' d')
      (np_full (n_obs (_dml_data self)) NaN,
       np_full (n_obs (_dml_data self)) NaN) self
    = (Ok (gh, mh), self') ∧
    final_propensity self' mh = Ok mt ∧
    psi = {| ind_d := eq_treatment self' d'; g := gh; m := mt;
             psi_y := y' |} ∧
    preds = {| preds_ml_g := gh; preds_ml_m := mt |}.
Proof.
  unfold _nuisance_est. intros Hrun.
  repeat peel Hrun.
  apply meth_bind_ok in Hrun as ([gh mh] & s1 & Hloop & Hrun).
  repeat peel Hrun.
  unfold mret, meth_ret in Hrun. injection Hrun as <- <- <-.
  eauto 10.
Qed.

Lemma tested_in_all smpls k j :
  length smpls = k → tested_in smpls 0 k j ↔ in_some_test_set smpls j.
Proof.
  intros Hlen. unfold tested_in, in_some_test_set. split.
  - intros (i & fold & _ & Hlook & Hj). exists fold. split; [|done].
    apply list_elem_of_lookup. eauto.
  - intros (fold & Hfold & Hj).
    apply list_elem_of_lookup in Hfold as [i Hlook].
    exists i, fold. split_and!; [lia| |done|done].
    apply lookup_lt_Some in Hlook. lia.
Qed.
End NuisanceEstFacts.

(** C3.  Let the sample split have as many folds as the object has.  When
    [_nuisance_est] returns, [g_hat] and [m_hat] have length [n_obs]; when
    the test sets of the folds are pairwise disjoint and their union is
    the index range, no entry of [g_hat] and [m_hat] is NaN; and an index
    that is in no test set keeps NaN in both arrays. *)
Theorem nuisance_est_fills_predictions {L} `{Learner L} `{Env}
    (self self' : DoubleMLPQ L) (smpls : list (list nat * list nat))
    (n_jobs_cv : option Z) (return_models : bool)
    (psi : psi_elements) (preds : preds_t) :
  length smpls = n_folds self →
  _nuisance_est smpls n_jobs_cv return_models self = (Ok (psi, preds), self') →
  g psi = preds_ml_g preds ∧ m psi = preds_ml_m preds ∧
  length (preds_ml_g preds) = n_obs (_dml_data self) ∧
  length (preds_ml_m preds) = n_obs (_dml_data self) ∧
  (test_sets_partition (n_obs (_dml_data self)) smpls →
   Forall finite (preds_ml_g preds) ∧ Forall finite (preds_ml_m preds)) ∧
  (∀ k, (k < n_obs (_dml_data self))%nat → ¬ in_some_test_set smpls k →
     preds_ml_g preds !! k = Some NaN ∧ preds_ml_m preds !! k = Some NaN).
Proof.
  intros Hfolds Hrun.
  apply nuisance_est_ok in Hrun
    as (x' & y' & d' & gh & mh & mt & Hloop & Hfinal & -> & ->).
  apply nuisance_loop_fill in Hloop as (Lg & Lm & _ & Hfill).
  apply final_propensity_lookup in Hfinal as [Lt Hfinal].
  unfold np_full in *. rewrite length_replicate in Lg, Lm. cbn.
  split_and!; [done|done|done|congruence| |].
  - intros [_ Hcover].
    assert (∀ k, (k < n_obs (_dml_data self))%nat →
                 finite_at gh k ∧ finite_at mh k) as Hall.
    { intros k Hk. destruct (Hfill k) as (Hcov & _).
      apply Hcov, tested_in_all; [done|]. by apply Hcover. }
    split; apply Forall_lookup; intros k v Hv.
    + destruct (Hall k) as [[r Hr] _].
      { apply lookup_lt_Some in Hv. lia. }
      rewrite Hr in Hv. injection Hv as <-. by exists r.
    + destruct (Hall k) as [_ Hm].
      { apply lookup_lt_Some in Hv. lia. }
      destruct (Hfinal k) as [Hfin _]. destruct (Hfin Hm) as [r Hr].
      rewrite Hr in Hv. injection Hv as <-. by exists r.
  - intros k Hk Hnot. destruct (Hfill k) as (_ & _ & _ & Hout).
    destruct Hout as [Hg Hm].
    { intros Hcov. apply Hnot. by apply (tested_in_all smpls (n_folds self)). }
    rewrite Hg. split; [by apply lookup_replicate_2|].
    destruct (Hfinal k) as [_ Hnan]. apply Hnan.
    rewrite Hm. by apply lookup_replicate_2.
Qed.

(** ** The nuisance estimation on explicit data *)

Lemma nuisance_est_data4 (warm : bool) :
  _nuisance_est (H0 := simple_env) smpls4 None false (pq4 warm)
  = (Ok (result4 warm), pq4_after warm).
Proof.
  destruct warm; unfold _nuisance_est; run_py;
    unfold result4, pq4_after, g_hat4, m_hat4; cbn;
    repeat (f_equal; try lra).
Qed.

Lemma nuisance_est_data4_partial :
  _nuisance_est (H0 := simple_env) smpls4_partial None false (pq4 false)
  = (Ok result4_partial, pq4_after false).
Proof.
  unfold _nuisance_est; run_py.
  unfold result4_partial, pq4_after; cbn.
  repeat (f_equal; try lra).
Qed.

Lemma smpls4_partition : test_sets_partition 4 smpls4.
Proof.
  split.
  - intros i j a b Hij Ha Hb k Hk.
    destruct i as [|[|i]], j as [|[|j]]; simplify_eq/=;
      repeat (apply elem_of_cons in Hk as [->|Hk]);
      try (by apply elem_of_nil in Hk);
      by apply (bool_decide_eq_false_1 (_ ∈ _)).
  - intros k. split.
    + intros Hk.
      destruct k as [|[|[|[|k]]]]; [| | | |lia].
      * exists ([1; 3], [0; 2])%nat.
        split; by apply (bool_decide_eq_true_1 (_ ∈ _)).
      * exists ([0; 2], [1; 3])%nat.
        split; by apply (bool_decide_eq_true_1 (_ ∈ _)).
      * exists ([1; 3], [0; 2])%nat.
        split; by apply (bool_decide_eq_true_1 (_ ∈ _)).
      * exists ([0; 2], [1; 3])%nat.
        split; by apply (bool_decide_eq_true_1 (_ ∈ _)).
    + intros (fold & Hfold & Hk). unfold smpls4 in Hfold.
      repeat (apply elem_of_cons in Hfold as [->|Hfold]);
        try (by apply elem_of_nil in Hfold); cbn in Hk;
        repeat (apply elem_of_cons in Hk as [->|Hk]);
        try (by apply elem_of_nil in Hk); lia.
Qed.

Lemma smpls4_partial_misses_3 : ¬ in_some_test_set smpls4_partial 3.
Proof.
  intros (fold & Hfold & Hk). unfold smpls4_partial in Hfold.
  repeat (apply elem_of_cons in Hfold as [->|Hfold]);
    try (by apply elem_of_nil in Hfold); cbn in Hk;
    repeat (apply elem_of_cons in Hk as [?|Hk]);
    try (by apply elem_of_nil in Hk); lia.
Qed.

Lemma nuisance_est_fills_predictions_witness :
  (test_sets_partition 4 smpls4 ∧
   length (preds_ml_g (result4 false).2) = 4%nat ∧
   length (preds_ml_m (result4 false).2) = 4%nat ∧
   Forall finite (preds_ml_g (result4 false).2) ∧
   Forall finite (preds_ml_m (result4 false).2))
  ∧
  (¬ in_some_test_set smpls4_partial 3 ∧
   preds_ml_g result4_partial.2 !! 3%nat = Some NaN ∧
   preds_ml_m result4_partial.2 !! 3%nat = Some NaN).
Proof.
  split.
  - destruct (nuisance_est_fills_predictions (H0 := simple_env)
                (pq4 false) (pq4_after false) smpls4 None false
                (result4 false).1 (result4 false).2)
      as (_ & _ & Lg & Lm & Hfin & _).
    + reflexivity.
    + apply (nuisance_est_data4 false).
    + destruct (Hfin smpls4_partition) as [Hg Hm].
      split_and!; [apply smpls4_partition|exact Lg|exact Lm|exact Hg|exact Hm].
  - destruct (nuisance_est_fills_predictions (H0 := simple_env)
                (pq4 false) (pq4_after false) smpls4_partial None false
                result4_partial.1 result4_partial.2)
      as (_ & _ & _ & _ & _ & Hnan).
    + reflexivity.
    + apply nuisance_est_data4_partial.
    + destruct (Hnan 3%nat) as [Hg Hm];
        [cbn; lia|apply smpls4_partial_misses_3|].
      split_and!; [apply smpls4_partial_misses_3|exact Hg|exact Hm].
Defined.


(** ** The start value of the root search *)




(** ** The IPW moment *)

Section IpwFacts.
Context {L : Type}.
Variable self : DoubleMLPQ L.

Lemma compute_ipw_score_rows theta (ds : list Z) ys props :
  length props = length ds → length ys = length ds →
  _compute_ipw_score self theta ds ys props =
  Ok (map (λ v, v - Fin (_quantile self))%fl
        (zip_with fmul
           (zip_with fdiv
              (astype_float (map (λ di, bool_decide (di = _treatment self)) ds))
              props)
           (astype_float (le_coef ys theta)))).
Proof.
  intros Lp Ly. unfold _compute_ipw_score.
  rewrite ew2_same_length
    by (unfold astype_float; rewrite !length_map; lia).
  rewrite result_bind_ret.
  rewrite ew2_same_length; [reflexivity|].
  unfold astype_float, le_coef.
  rewrite length_zip_with, !length_map. lia.
Qed.

Lemma ipw_rows_lookup theta (ds : list Z) ys props i di pi yi :
  ds !! i = Some di → props !! i = Some pi → ys !! i = Some yi →
  map (λ v, v - Fin (_quantile self))%fl
    (zip_with fmul
       (zip_with fdiv
          (astype_float (map (λ di, bool_decide (di = _treatment self)) ds))
          props)
       (astype_float (le_coef ys theta))) !! i
  = Some (b2f (bool_decide (di = _treatment self)) / pi * b2f (fle yi theta)
          - Fin (_quantile self))%fl.
Proof.
  intros Hd Hp Hy. unfold astype_float, le_coef.
  change (@map) with (@fmap list _).
  rewrite list_lookup_fmap, !lookup_zip_with, !list_lookup_fmap.
  rewrite Hd, Hp, Hy. reflexivity.
Qed.
End IpwFacts.

(** Sums of arrays of numbers that are ordered entry by entry. *)
Lemma np_sum_mono (a b : list npfloat) :
  Forall2 (λ u v, ∃ r s, u = Fin r ∧ v = Fin s ∧ r <= s) a b →
  ∃ r s, np_sum a = Fin r ∧ np_sum b = Fin s ∧ r <= s.
Proof.
  induction 1 as [|u v a b (r & s & -> & -> & Hrs) _ (r' & s' & Ha & Hb & Hle)];
    cbn.
  - exists 0, 0. repeat split; lra.
  - unfold np_sum in Ha, Hb. rewrite Ha, Hb. cbn.
    exists (r + r'), (s + s'). repeat split; lra.
Qed.

Lemma np_sum_constant (n : nat) (c : R) :
  np_sum (replicate n (Fin c)) = Fin (INR n * c).
Proof.
  induction n as [|n IH].
  - cbn. f_equal. lra.
  - rewrite S_INR. cbn [replicate np_sum foldr].
    unfold np_sum in IH. rewrite IH. cbn. f_equal. lra.
Qed.

Lemma np_mean_of_sum (a : list npfloat) (r : R) :
  a ≠ [] → np_sum a = Fin r → np_mean a = Fin (r / INR (length a)).
Proof.
  intros Hne Hsum. unfold np_mean. destruct a; [done|]. by rewrite Hsum.
Qed.

(** X1.  On arrays of one length [n], [_compute_ipw_score] returns the
    array of length [n] with entries
    [(d[i] == treatment) / prop[i] * (y[i] <= theta) - quantile]. *)
Theorem compute_ipw_score_elementwise {L} (self : DoubleMLPQ L)
    (theta : npfloat) (ds : list Z) (ys props : list npfloat) :
  length props = length ds → length ys = length ds →
  ∃ s, _compute_ipw_score self theta ds ys props = Ok s ∧
    length s = length ds ∧
    ∀ i di pi yi,
      ds !! i = Some di → props !! i = Some pi → ys !! i = Some yi →
      s !! i =
      Some (b2f (bool_decide (di = _treatment self)) / pi
            * b2f (fle yi theta) - Fin (_quantile self))%fl.
Proof.
  intros Lp Ly. eexists. split; [|split].
  - by apply compute_ipw_score_rows.
  - unfold astype_float, le_coef.
    rewrite length_map, !length_zip_with, !length_map. lia.
  - intros i di pi yi. apply ipw_rows_lookup.
Qed.

Lemma compute_ipw_score_elementwise_witness :
  ∃ s, _compute_ipw_score (pq4 false) (Fin 2) [1%Z; 0%Z]
         [Fin 1; Fin 3] [Fin (1 / 2); Fin (1 / 2)] = Ok s ∧
    length s = 2%nat ∧
    ∀ i di pi yi,
      [1%Z; 0%Z] !! i = Some di →
      [Fin (1 / 2); Fin (1 / 2)] !! i = Some pi →
      [Fin 1; Fin 3] !! i = Some yi →
      s !! i =
      Some (b2f (bool_decide (di = _treatment (pq4 false))) / pi
            * b2f (fle yi (Fin 2)) - Fin (_quantile (pq4 false)))%fl.
Proof.
  apply (compute_ipw_score_elementwise (pq4 false) (Fin 2) [1%Z; 0%Z]
           [Fin 1; Fin 3] [Fin (1 / 2); Fin (1 / 2)]); reflexivity.
Defined.

(** X2.  With positive propensities, the mean of the IPW score over a
    non-empty sample is a number, and it does not decrease when [theta]
    grows. *)
Theorem ipw_mean_monotone {L} (self : DoubleMLPQ L) (theta1 theta2 : R)
    (ds : list Z) (ys props : list npfloat) :
  length props = length ds → length ys = length ds → ds ≠ [] →
  Forall (λ p, ∃ r, p = Fin r ∧ 0 < r) props →
  theta1 <= theta2 →
  ∃ s1 s2 v1 v2,
    _compute_ipw_score self (Fin theta1) ds ys props = Ok s1 ∧
    _compute_ipw_score self (Fin theta2) ds ys props = Ok s2 ∧
    np_mean s1 = Fin v1 ∧ np_mean s2 = Fin v2 ∧ v1 <= v2.
Proof.
  intros Lp Ly Hne Hpos Hle.
  rewrite !compute_ipw_score_rows by done.
  eexists _, _. 
  set (s1 := map _ (zip_with fmul _ (astype_float (le_coef ys (Fin theta1))))).
  set (s2 := map _ (zip_with fmul _ (astype_float (le_coef ys (Fin theta2))))).
  assert (length s1 = length ds) as L1.
  { unfold s1, astype_float, le_coef.
    rewrite length_map, !length_zip_with, !length_map. lia. }
  assert (length s2 = length ds) as L2.
  { unfold s2, astype_float, le_coef.
    rewrite length_map, !length_zip_with, !length_map. lia. }
  assert (Forall2 (λ u v, ∃ r s, u = Fin r ∧ v = Fin s ∧ r <= s) s1 s2)
    as Hrows.
  { apply Forall2_same_length_lookup_2; [congruence|].
    intros i u v Hu Hv.
    destruct (lookup_lt_is_Some_2 ds i) as [di Hdi].
    { apply lookup_lt_Some in Hu. lia. }
    destruct (lookup_lt_is_Some_2 props i) as [pi Hpi].
    { apply lookup_lt_Some in Hu. lia. }
    destruct (lookup_lt_is_Some_2 ys i) as [yi Hyi].
    { apply lookup_lt_Some in Hu. lia. }
    unfold s1 in Hu. unfold s2 in Hv.
    rewrite (ipw_rows_lookup self _ ds ys props i di pi yi) in Hu by done.
    rewrite (ipw_rows_lookup self _ ds ys props i di pi yi) in Hv by done.
    injection Hu as <-. injection Hv as <-.
    rewrite Forall_forall in Hpos.
    destruct (Hpos pi) as (p & -> & Hp).
    { apply list_elem_of_lookup. eauto. }
    assert (0 < / p) as Hinv by (by apply Rinv_0_lt_compat).
    destruct yi as [|yv]; cbn.
    - eexists _, _. split_and!; [done|done|lra].
    - eexists _, _. split_and!; [done|done|].
      unfold Rdiv.
      destruct (bool_decide (di = _treatment self));
        repeat case_bool_decide; try lra; nra. }
  destruct (np_sum_mono _ _ Hrows) as (r & s & Hr & Hs & Hrs).
  assert (0 < INR (length ds)) as Hn.
  { apply lt_0_INR. destruct ds; [done|cbn; lia]. }
  exists (r / INR (length s1)), (s / INR (length s2)).
  split_and!; [done|done| | |].
  - apply np_mean_of_sum; [|done]. intros Hnil.
    rewrite Hnil in L1. by destruct ds.
  - apply np_mean_of_sum; [|done]. intros Hnil.
    rewrite Hnil in L2. by destruct ds.
  - rewrite L1, L2. unfold Rdiv.
    apply Rmult_le_compat_r; [|done].
    apply Rlt_le. by apply Rinv_0_lt_compat.
Qed.

Lemma ipw_mean_monotone_witness :
  ∃ s1 s2 v1 v2,
    _compute_ipw_score (pq4 false) (Fin 2) [1%Z; 0%Z]
      [Fin 1; Fin 3] [Fin (1 / 2); Fin (1 / 2)] = Ok s1 ∧
    _compute_ipw_score (pq4 false) (Fin 4) [1%Z; 0%Z]
      [Fin 1; Fin 3] [Fin (1 / 2); Fin (1 / 2)] = Ok s2 ∧
    np_mean s1 = Fin v1 ∧ np_mean s2 = Fin v2 ∧ v1 <= v2.
Proof.
  apply (ipw_mean_monotone (pq4 false) 2 4 [1%Z; 0%Z]
           [Fin 1; Fin 3] [Fin (1 / 2); Fin (1 / 2)]);
    [reflexivity|reflexivity|done| |lra].
  repeat constructor; eexists; (split; [reflexivity|lra]).
Defined.

(** X3.  When no outcome is [<= theta] and the propensities are positive
    numbers, every entry of the IPW score is [- quantile], and so is its
    mean over a non-empty sample. *)
Theorem ipw_score_left_of_data {L} (self : DoubleMLPQ L) (theta : npfloat)
    (ds : list Z) (ys props : list npfloat) :
  length props = length ds → length ys = length ds → ds ≠ [] →
  Forall (λ p, ∃ r, p = Fin r ∧ 0 < r) props →
  Forall (λ yi, fle yi theta = false) ys →
  _compute_ipw_score self theta ds ys props
  = Ok (replicate (length ds) (Fin (- _quantile self)))
  ∧ np_mean (replicate (length ds) (Fin (- _quantile self)))
    = Fin (- _quantile self).
Proof.
  intros Lp Ly Hne Hpos Hleft. split.
  - rewrite compute_ipw_score_rows by done. f_equal.
    apply list_eq. intros i.
    destruct (decide (i < length ds)%nat) as [Hi|Hi].
    + destruct (lookup_lt_is_Some_2 ds i) as [di Hdi]; [done|].
      destruct (lookup_lt_is_Some_2 props i) as [pi Hpi]; [lia|].
      destruct (lookup_lt_is_Some_2 ys i) as [yi Hyi]; [lia|].
      rewrite (ipw_rows_lookup self _ ds ys props i di pi yi) by done.
      rewrite lookup_replicate_2 by done. f_equal.
      rewrite Forall_forall in Hpos, Hleft.
      destruct (Hpos pi) as (p & -> & Hp).
      { apply list_elem_of_lookup. eauto. }
      rewrite (Hleft yi) by (apply list_elem_of_lookup; eauto).
      cbn. f_equal. unfold Rdiv. ring.
    + rewrite !lookup_ge_None_2; [done| |].
      * rewrite length_replicate. lia.
      * unfold astype_float, le_coef.
        rewrite length_map, !length_zip_with, !length_map. lia.
  - rewrite (np_mean_of_sum _ (INR (length ds) * - _quantile self)).
    + rewrite length_replicate. f_equal. field.
      apply not_0_INR. by destruct ds.
    + destruct ds; [done|]. done.
    + apply np_sum_constant.
Qed.

Lemma ipw_score_left_of_data_witness :
  _compute_ipw_score (pq4 false) (Fin 0) [1%Z; 0%Z]
    [Fin 1; Fin 3] [Fin (1 / 2); Fin (1 / 2)]
  = Ok (replicate 2 (Fin (- _quantile (pq4 false))))
  ∧ np_mean (replicate 2 (Fin (- _quantile (pq4 false))))
    = Fin (- _quantile (pq4 false)).
Proof.
  apply (ipw_score_left_of_data (pq4 false) (Fin 0) [1%Z; 0%Z]
           [Fin 1; Fin 3] [Fin (1 / 2); Fin (1 / 2)]);
    [reflexivity|reflexivity|done| |].
  - repeat constructor; eexists; (split; [reflexivity|lra]).
  - repeat constructor; cbn; apply bool_decide_eq_false_2; lra.
Defined.

(** X4.  With [g] identically zero the score is the IPW score: on a bundle
    with [ind_d = (d == treatment)], [g = 0] and [m = prop],
    [_compute_score] returns what [_compute_ipw_score] returns. *)
Theorem score_without_g_is_ipw_score {L} (self : DoubleMLPQ L)
    (theta : npfloat) (ds : list Z) (ys props : list npfloat) :
  length props = length ds → length ys = length ds →
  _compute_score self
    {| ind_d := map (λ di, bool_decide (di = _treatment self)) ds;
       g := replicate (length ds) (Fin 0); m := props; psi_y := ys |}
    theta None
  = _compute_ipw_score self theta ds ys props.
Proof.
  intros Lp Ly.
  rewrite compute_ipw_score_rows by done.
  rewrite (compute_score_selected self _ theta None
             (map (λ di, bool_decide (di = _treatment self)) ds)
             (replicate (length ds) (Fin 0)) props ys);
    [|reflexivity|reflexivity|reflexivity|reflexivity
     |by rewrite length_replicate, length_map
     |by rewrite length_map|by rewrite length_map].
  f_equal. apply list_eq. intros i.
  destruct (decide (i < length ds)%nat) as [Hi|Hi].
  - destruct (lookup_lt_is_Some_2 ds i) as [di Hdi]; [done|].
    destruct (lookup_lt_is_Some_2 props i) as [pi Hpi]; [lia|].
    destruct (lookup_lt_is_Some_2 ys i) as [yi Hyi]; [lia|].
    rewrite (ipw_rows_lookup self _ ds ys props i di pi yi) by done.
    rewrite (score_rows_lookup self theta _ _ props ys i
               (bool_decide (di = _treatment self)) (Fin 0) pi yi);
      [|by rewrite list_lookup_fmap, Hdi|by apply lookup_replicate_2
       |done|done].
    f_equal. destruct pi as [|p]; [reflexivity|].
    cbn. f_equal. unfold Rdiv. ring.
  - rewrite !lookup_ge_None_2; [done| |];
      unfold astype_float, le_coef;
      rewrite length_map, !length_zip_with, ?length_map, ?length_replicate;
      lia.
Qed.

Lemma score_without_g_is_ipw_score_witness :
  _compute_score (pq4 false)
    {| ind_d := map (λ di, bool_decide (di = _treatment (pq4 false)))
                  [1%Z; 0%Z];
       g := replicate (length [1%Z; 0%Z]) (Fin 0);
       m := [Fin (1 / 2); Fin (1 / 2)]; psi_y := [Fin 1; Fin 3] |}
    (Fin 2) None
  = _compute_ipw_score (pq4 false) (Fin 2) [1%Z; 0%Z] [Fin 1; Fin 3]
      [Fin (1 / 2); Fin (1 / 2)].
Proof.
  apply (score_without_g_is_ipw_score (pq4 false) (Fin 2) [1%Z; 0%Z]
           [Fin 1; Fin 3] [Fin (1 / 2); Fin (1 / 2)]); reflexivity.
Defined.

(** ** Properties of the score *)

(** X5.  The score does not decrease in the coefficient: on a bundle of
    length [n], at a row whose [g] is a number and whose [m] is a positive
    number, the entry at [theta1] is at most the entry at [theta2 >= theta1]. *)
Theorem compute_score_monotone {L} (self : DoubleMLPQ L) (psi : psi_elements)
    (n : nat) (theta1 theta2 : R) :
  bundle_of_length n psi → theta1 <= theta2 →
  ∃ s1 s2,
    _compute_score self psi (Fin theta1) None = Ok s1 ∧
    _compute_score self psi (Fin theta2) None = Ok s2 ∧
    ∀ i gv mv,
      (i < n)%nat → g psi !! i = Some (Fin gv) → m psi !! i = Some (Fin mv) →
      0 < mv →
      ∃ u v, s1 !! i = Some (Fin u) ∧ s2 !! i = Some (Fin v) ∧ u <= v.
Proof.
  intros (Ld & Lg & Lm & Ly) Hle.
  eexists _, _. split; [|split].
  - apply compute_score_selected with (inds := None); cbn;
      (reflexivity || lia).
  - apply compute_score_selected with (inds := None); cbn;
      (reflexivity || lia).
  - intros i gv mv Hi Hg Hm Hpos.
    destruct (lookup_lt_is_Some_2 (ind_d psi) i) as [di Hdi]; [lia|].
    destruct (lookup_lt_is_Some_2 (psi_y psi) i) as [yi Hyi]; [lia|].
    rewrite !(score_rows_lookup self _ _ _ _ _ i di (Fin gv) (Fin mv) yi)
      by done.
    assert (0 < / mv) as Hinv by (by apply Rinv_0_lt_compat).
    destruct yi as [|yv]; cbn.
    + eexists _, _. split_and!; [done|done|lra].
    + eexists _, _. split_and!; [done|done|].
      unfold Rdiv. destruct di; repeat case_bool_decide; try lra; nra.
Qed.

Lemma compute_score_monotone_witness :
  ∃ s1 s2,
    _compute_score (pq4 false) psi2 (Fin (-1)) None = Ok s1 ∧
    _compute_score (pq4 false) psi2 (Fin 1) None = Ok s2 ∧
    ∀ i gv mv,
      (i < 2)%nat → g psi2 !! i = Some (Fin gv) → m psi2 !! i = Some (Fin mv) →
      0 < mv →
      ∃ u v, s1 !! i = Some (Fin u) ∧ s2 !! i = Some (Fin v) ∧ u <= v.
Proof.
  apply (compute_score_monotone (pq4 false) psi2 2 (-1) 1);
    [repeat split; reflexivity|lra].
Defined.

(** X6.  At a row that is not of the treatment level and whose [m] is a
    number other than zero, the score is [g - quantile], whatever the
    outcome and the coefficient. *)
Theorem compute_score_untreated_row {L} (self : DoubleMLPQ L)
    (psi : psi_elements) (n : nat) (theta : npfloat) :
  bundle_of_length n psi →
  ∃ s, _compute_score self psi theta None = Ok s ∧
    ∀ i gi mv,
      ind_d psi !! i = Some false → g psi !! i = Some gi →
      m psi !! i = Some (Fin mv) → mv ≠ 0 →
      s !! i = Some (gi - Fin (_quantile self))%fl.
Proof.
  intros (Ld & Lg & Lm & Ly).
  eexists. split.
  - apply compute_score_selected with (inds := None); cbn;
      (reflexivity || lia).
  - intros i gi mv Hd Hg Hm Hne.
    destruct (lookup_lt_is_Some_2 (psi_y psi) i) as [yi Hyi].
    { apply lookup_lt_Some in Hd. lia. }
    rewrite (score_rows_lookup self _ _ _ _ _ i false gi (Fin mv) yi)
      by done.
    f_equal. destruct gi as [|gv]; [reflexivity|].
    cbn. f_equal. unfold Rdiv. ring.
Qed.

Lemma compute_score_untreated_row_witness :
  ∃ s, _compute_score (pq4 false)
         {| ind_d := [true; false]; g := [Fin (1 / 2); Fin (1 / 4)];
            m := [Fin (1 / 2); Fin (1 / 2)]; psi_y := [Fin 1; Fin 3] |}
         (Fin 2) None = Ok s ∧
    ∀ i gi mv,
      [true; false] !! i = Some false →
      [Fin (1 / 2); Fin (1 / 4)] !! i = Some gi →
      [Fin (1 / 2); Fin (1 / 2)] !! i = Some (Fin mv) → mv ≠ 0 →
      s !! i = Some (gi - Fin (_quantile (pq4 false)))%fl.
Proof.
  apply (compute_score_untreated_row (pq4 false)
           {| ind_d := [true; false]; g := [Fin (1 / 2); Fin (1 / 4)];
              m := [Fin (1 / 2); Fin (1 / 2)]; psi_y := [Fin 1; Fin 3] |}
           2 (Fin 2)).
  repeat split; reflexivity.
Defined.

(** X7.  An index that is out of range makes the score and its derivative
    raise [IndexError]. *)
Theorem score_index_out_of_range {L} (self : DoubleMLPQ L)
    (psi : psi_elements) (n : nat) (theta : npfloat) (inds : list nat) :
  bundle_of_length n psi → Exists (λ i, n ≤ i)%nat inds →
  _compute_score self psi theta (Some inds)
  = Raise (IndexError "index is out of bounds")
  ∧ _compute_score_deriv self psi theta (Some inds)
    = Raise (IndexError "index is out of bounds").
Proof.
  intros (Ld & Lg & Lm & Ly) Hout.
  assert (np_take (ind_d psi) inds
          = Raise (IndexError "index is out of bounds")) as Htake.
  { apply np_take_out_of_range. rewrite Ld. intros Hall.
    apply Exists_exists in Hout as (i & Hi & Hge).
    rewrite Forall_forall in Hall. specialize (Hall i Hi). lia. }
  unfold _compute_score, _compute_score_deriv, select.
  by rewrite Htake.
Qed.

Lemma score_index_out_of_range_witness :
  _compute_score (pq4 false) psi2 (Fin 0) (Some [0; 2]%nat)
  = Raise (IndexError "index is out of bounds")
  ∧ _compute_score_deriv (pq4 false) psi2 (Fin 0) (Some [0; 2]%nat)
    = Raise (IndexError "index is out of bounds").
Proof.
  apply (score_index_out_of_range (pq4 false) psi2 2 (Fin 0) [0; 2]%nat).
  - repeat split; reflexivity.
  - apply Exists_cons_tl, Exists_cons_hd. lia.
Defined.

(** X8.  The score is bounded through the trimming threshold: at a row
    with [g] in [[0, 1]] and [m >= tau > 0], and with a quantile in (0, 1),
    the entry lies between [-(1 / tau + 1)] and [1 / tau + 1]. *)
Theorem compute_score_bounded {L} (self : DoubleMLPQ L) (psi : psi_elements)
    (n : nat) (theta : npfloat) (tau : R) :
  bundle_of_length n psi → 0 < tau → 0 < _quantile self < 1 →
  ∃ s, _compute_score self psi theta None = Ok s ∧
    ∀ i gv mv,
      (i < n)%nat → g psi !! i = Some (Fin gv) → m psi !! i = Some (Fin mv) →
      0 <= gv <= 1 → tau <= mv →
      ∃ v, s !! i = Some (Fin v) ∧ - (1 / tau + 1) <= v <= 1 / tau + 1.
Proof.
  intros (Ld & Lg & Lm & Ly) Htau Hq.
  eexists. split.
  - apply compute_score_selected with (inds := None); cbn;
      (reflexivity || lia).
  - intros i gv mv Hi Hg Hm Hgr Hmr.
    destruct (lookup_lt_is_Some_2 (ind_d psi) i) as [di Hdi]; [lia|].
    destruct (lookup_lt_is_Some_2 (psi_y psi) i) as [yi Hyi]; [lia|].
    rewrite (score_rows_lookup self _ _ _ _ _ i di (Fin gv) (Fin mv) yi)
      by done.
    assert (0 < / mv <= / tau) as Hinv.
    { split; [apply Rinv_0_lt_compat; lra|].
      apply Rinv_le_contravar; lra. }
    assert (0 < / tau) as Hit by (apply Rinv_0_lt_compat; lra).
    cbn. eexists. split; [reflexivity|].
    unfold Rdiv. rewrite Rmult_1_l.
    destruct di, (fle yi theta); split; nra.
Qed.

Lemma compute_score_bounded_witness :
  ∃ s, _compute_score (pq4 false) psi2 (Fin 0) None = Ok s ∧
    ∀ i gv mv,
      (i < 2)%nat → g psi2 !! i = Some (Fin gv) → m psi2 !! i = Some (Fin mv) →
      0 <= gv <= 1 → 1 / 4 <= mv →
      ∃ v, s !! i = Some (Fin v) ∧
        - (1 / (1 / 4) + 1) <= v <= 1 / (1 / 4) + 1.
Proof.
  apply (compute_score_bounded (pq4 false) psi2 2 (Fin 0) (1 / 4));
    [repeat split; reflexivity|lra|cbn; lra].
Defined.

(** ** Properties of the derivative *)




(** X10.  With the bandwidth NaN, which the constructor accepts, every
    entry of the derivative is NaN. *)
Theorem compute_score_deriv_nan_bandwidth {L} (self : DoubleMLPQ L)
    (psi : psi_elements) (n : nat) (theta : npfloat) :
  bundle_of_length n psi → _h self = NaN →
  _compute_score_deriv self psi theta None = Ok (replicate n NaN).
Proof.
  intros (Ld & Lg & Lm & Ly) Hh.
  rewrite (compute_score_deriv_selected self psi theta None
             (ind_d psi) (m psi) (psi_y psi))
    by (cbn; (reflexivity || lia)).
  f_equal. apply list_eq. intros i.
  destruct (decide (i < n)%nat) as [Hi|Hi].
  - destruct (lookup_lt_is_Some_2 (ind_d psi) i) as [di Hdi]; [lia|].
    destruct (lookup_lt_is_Some_2 (m psi) i) as [mi Hmi]; [lia|].
    destruct (lookup_lt_is_Some_2 (psi_y psi) i) as [yi Hyi]; [lia|].
    rewrite (deriv_rows_lookup self _ _ _ _ i di mi yi) by done.
    rewrite lookup_replicate_2 by done. rewrite Hh. f_equal.
    destruct (_normalize self), mi, yi, theta,
      (np_mean (zip_with fdiv (astype_float (ind_d psi)) (m psi)));
      reflexivity.
  - rewrite !lookup_ge_None_2; [done| |].
    + rewrite length_replicate. lia.
    + unfold score_weights, astype_float.
      destruct (_normalize self);
        repeat first [rewrite length_map | rewrite length_zip_with]; lia.
Qed.

Lemma compute_score_deriv_nan_bandwidth_witness :
  _compute_score_deriv (pq4_with false NaN) psi2 (Fin 0) None
  = Ok (replicate 2 NaN).
Proof.
  apply (compute_score_deriv_nan_bandwidth (pq4_with false NaN) psi2 2
           (Fin 0)); [repeat split; reflexivity|reflexivity].
Defined.

(** ** Properties of the constructor *)

(** X11.  [_check_bandwidth] returns exactly for a float that is not
    [<= 0] (a positive number or NaN); it raises [TypeError] for every
    value that is not a float, an integer included, and [ValueError] for a
    float that is [<= 0]. *)
Theorem check_bandwidth_cases (v : pyval) :
  (∀ bw, _check_bandwidth v = Ok bw ↔
         v = PyFloat bw ∧ (bw = NaN ∨ ∃ r, bw = Fin r ∧ 0 < r))
  ∧ (_check_bandwidth v = Raise (TypeError "Bandwidth has to be a float.")
     ↔ ∀ f, v ≠ PyFloat f)
  ∧ (_check_bandwidth v = Raise (ValueError "Bandwidth has be positive.")
     ↔ ∃ r, v = PyFloat (Fin r) ∧ r <= 0).
Proof.
  split_and!.
  - intros bw. split.
    + intros [-> Hle]%check_bandwidth_ok. split; [done|].
      destruct bw as [|r]; [by left|right].
      exists r. split; [done|].
      cbn in Hle. apply bool_decide_eq_false_1 in Hle. lra.
    + intros [-> [->|(r & -> & Hr)]]; cbn; [done|].
      by rewrite bool_decide_eq_false_2 by lra.
  - split.
    + destruct v as [| | |[|r]|]; cbn; try done.
      case_bool_decide; discriminate.
    + intros Hv. destruct v; try done. by destruct (Hv f).
  - split.
    + destruct v as [| | |[|r]|]; cbn; try done.
      case_bool_decide; [|discriminate]. eauto.
    + intros (r & -> & Hr). cbn. by rewrite bool_decide_eq_true_2.
Qed.





(** Minimum and maximum of an array of numbers. *)
Lemma foldr_fmin_spec (rest : list npfloat) (v : R) :
  Forall finite rest →
  ∃ lo, foldr fmin (Fin v) rest = Fin lo ∧
    (Fin lo = Fin v ∨ Fin lo ∈ rest) ∧
    lo <= v ∧ ∀ r, Fin r ∈ rest → lo <= r.
Proof.
  induction 1 as [|u rest [r ->] _ (lo & Hlo & Hmem & Hv & Hall)]; cbn.
  - exists v. split_and!; [done|by left|lra|].
    intros r Hr. by apply elem_of_nil in Hr.
  - rewrite Hlo. cbn. exists (Rmin r lo).
    pose proof (Rmin_l r lo). pose proof (Rmin_r r lo).
    split_and!; [done| |lra|].
    + unfold Rmin. destruct (Rle_dec r lo).
      * right. by left.
      * destruct Hmem as [Hmem|Hmem]; [by left|right; by right].
    + intros r' [[= ->]|Hr']%elem_of_cons; [done|].
      specialize (Hall r' Hr'). lra.
Qed.

Lemma foldr_fmax_spec (rest : list npfloat) (v : R) :
  Forall finite rest →
  ∃ hi, foldr fmax (Fin v) rest = Fin hi ∧
    (Fin hi = Fin v ∨ Fin hi ∈ rest) ∧
    v <= hi ∧ ∀ r, Fin r ∈ rest → r <= hi.
Proof.
  induction 1 as [|u rest [r ->] _ (hi & Hhi & Hmem & Hv & Hall)]; cbn.
  - exists v. split_and!; [done|by left|lra|].
    intros r Hr. by apply elem_of_nil in Hr.
  - rewrite Hhi. cbn. exists (Rmax r hi).
    pose proof (Rmax_l r hi). pose proof (Rmax_r r hi).
    split_and!; [done| |lra|].
    + unfold Rmax. destruct (Rle_dec r hi).
      * destruct Hmem as [Hmem|Hmem]; [by left|right; by right].
      * right. by left.
    + intros r' [[= ->]|Hr']%elem_of_cons; [done|].
      specialize (Hall r' Hr'). lra.
Qed.

(** X14.  When no outcome is NaN, the bounds a constructed object stores
    for the root search are two of the outcomes, and every outcome lies
    between them. *)
Theorem init_bounds_enclose_outcomes {L} `{Learner L} `{Env}
    (args : init_args L) (obj : DoubleMLPQ L) :
  DoubleMLPQ_init args = Ok obj →
  Forall finite (y (_dml_data obj)) →
  ∃ lo hi, _coef_bounds obj = (Fin lo, Fin hi) ∧
    Fin lo ∈ y (_dml_data obj) ∧ Fin hi ∈ y (_dml_data obj) ∧
    ∀ r, Fin r ∈ y (_dml_data obj) → lo <= r <= hi.
Proof.
  unfold DoubleMLPQ_init. intros Hinit Hfin.
  apply result_bind_ok in Hinit as (h' & Hh & Hinit).
  apply result_bind_ok in Hinit as ([] & Hcl & Hinit).
  apply result_bind_ok in Hinit as (data & Hdata & Hinit).
  apply result_bind_ok in Hinit as ([] & Hscore & Hinit).
  apply result_bind_ok in Hinit as (q & Hq & Hinit).
  apply result_bind_ok in Hinit as (t & Ht & Hinit).
  apply result_bind_ok in Hinit as (bw & Hbw & Hinit).
  apply result_bind_ok in Hinit as (nz & Hnz & Hinit).
  apply result_bind_ok in Hinit as (y_min & Hmin & Hinit).
  apply result_bind_ok in Hinit as (y_max & Hmax & Hinit).
  apply result_bind_ok in Hinit as ([rule thr] & Htrim & Hinit).
  apply result_bind_ok in Hinit as (smpls & Hsmpls & Hinit).
  injection Hinit as <-. cbn in *.
  destruct (y data) as [|v rest]; [discriminate|].
  injection Hmin as <-. injection Hmax as <-.
  apply Forall_cons in Hfin as [[v0 ->] Hrest].
  destruct (foldr_fmin_spec rest v0 Hrest) as (lo & -> & Hlo & Hlov & Hloall).
  destruct (foldr_fmax_spec rest v0 Hrest) as (hi & -> & Hhi & Hhiv & Hhiall).
  exists lo, hi. split_and!; [done| | |].
  - destruct Hlo as [->|Hlo]; [by left|by right].
  - destruct Hhi as [->|Hhi]; [by left|by right].
  - intros r [[= ->]|Hr]%elem_of_cons; [lra|].
    specialize (Hloall r Hr). specialize (Hhiall r Hr). lra.
Qed.

Lemma init_bounds_enclose_outcomes_witness :
  ∃ lo hi, _coef_bounds (pq4 false) = (Fin lo, Fin hi) ∧
    Fin lo ∈ y (_dml_data (pq4 false)) ∧ Fin hi ∈ y (_dml_data (pq4 false)) ∧
    ∀ r, Fin r ∈ y (_dml_data (pq4 false)) → lo <= r <= hi.
Proof.
  apply (init_bounds_enclose_outcomes (H0 := simple_env)
           (args4 false (PyFloat (Fin 1))) (pq4 false)).
  - apply init_args4. cbn. apply bool_decide_eq_false_2. lra.
  - repeat constructor; by eexists.
Defined.

(** ** Properties of the nuisance estimation *)

Section Frames.
Context {L : Type} `{Learner L} `{Env}.

(** A call leaves the configuration as it is, whether it returns or
    raises. *)
Local Abbreviation frames c :=
  (∀ s r s', c s = (r, s') → same_config s s').

Lemma frames_bind {A B} (c : meth L A) (f : A → meth L B) :
  frames c → (∀ a, frames (f a)) → frames (c ≫= f).
Proof.
  intros Hc Hf s r s'. unfold mbind, meth_bind.
  destruct (c s) as [[a|e] s1] eqn:Hcs.
  - intros Hfa. eapply same_config_trans; eauto.
  - intros [= <- <-]. eauto.
Qed.

Lemma frames_lift {A} (r : result A) : frames (lift_result (L := L) r).
Proof. intros s r' s' [= _ <-]. apply same_config_refl. Qed.

Lemma frames_get : frames (get_self (L := L)).
Proof. intros s r' s' [= _ <-]. apply same_config_refl. Qed.

Lemma frames_ret {A} (a : A) : frames (mret (M := meth L) a).
Proof. intros s r' s' [= _ <-]. apply same_config_refl. Qed.

Lemma frames_set_start v : frames (set_coef_start_val (L := L) v).
Proof. intros s r' s' [= _ <-]. by repeat split. Qed.

Lemma frames_fit_g X labels : frames (fit_ml_g X labels).
Proof.
  unfold fit_ml_g. apply frames_bind; [apply frames_get|intros self].
  apply frames_bind; [apply frames_lift|intros fitted].
  intros s r' s' [= _ <-]. by repeat split.
Qed.

Lemma frames_fit_m X labels : frames (fit_ml_m X labels).
Proof.
  unfold fit_ml_m. apply frames_bind; [apply frames_get|intros self].
  apply frames_bind; [apply frames_lift|intros fitted].
  intros s r' s' [= _ <-]. by repeat split.
Qed.

Lemma frames_for_each {A S} (l : list A) (body : A → S → meth L S) :
  (∀ a acc, frames (body a acc)) → ∀ acc, frames (for_each l body acc).
Proof.
  intros Hbody. induction l as [|a l IH]; intros acc; cbn.
  - apply frames_ret.
  - apply frames_bind; [apply Hbody|apply IH].
Qed.

Ltac frames_step :=
  first [ apply frames_lift | apply frames_get | apply frames_ret
        | apply frames_set_start | apply frames_fit_g | apply frames_fit_m
        | (apply frames_bind; [|first [intros [? ?]|intros ?]]) ].

Lemma frames_nuisance_fold smpls x y d i hats :
  frames (nuisance_fold smpls x y d i hats).
Proof. destruct hats. unfold nuisance_fold. repeat frames_step. Qed.

Lemma frames_nuisance_est smpls n_jobs_cv return_models :
  frames (_nuisance_est smpls n_jobs_cv return_models).
Proof.
  unfold _nuisance_est.
  apply frames_bind; [apply frames_get|intros self].
  apply frames_bind; [apply frames_lift|intros [x' y']].
  apply frames_bind; [apply frames_lift|intros [x'' d']].
  apply frames_bind;
    [apply frames_for_each; intros a acc; apply frames_nuisance_fold|].
  intros [g_hat m_hat]. repeat frames_step.
Qed.
End Frames.

(** X15.  [_nuisance_est] changes nothing of the object but the start
    value of the root search and the stored learners, whether it returns or
    raises: data, number of folds and repetitions, quantile, treatment
    level, bandwidth, normalization flag, trimming rule and threshold,
    bounds and sample splitting are as before. *)
Theorem nuisance_est_keeps_config {L} `{Learner L} `{Env}
    (self self' : DoubleMLPQ L) (smpls : list (list nat * list nat))
    (n_jobs_cv : option Z) (return_models : bool)
    (r : result (psi_elements * preds_t)) :
  _nuisance_est smpls n_jobs_cv return_models self = (r, self') →
  same_config self self'.
Proof. apply frames_nuisance_est. Qed.

Lemma nuisance_est_keeps_config_witness :
  same_config (pq4 false) (pq4_after false).
Proof.
  apply (nuisance_est_keeps_config (H0 := simple_env) (pq4 false)
           (pq4_after false) smpls4 None false (Ok (result4 false))).
  apply (nuisance_est_data4 false).
Defined.

Lemma check_X_y_ok {A} (X : list Row) (v : list A) X' v' :
  check_X_y X v = Ok (X', v') →
  X' = X ∧ v' = v ∧ length X = length v ∧ v ≠ [].
Proof.
  unfold check_X_y. destruct (decide _) as [Hlen|]; [|discriminate].
  destruct (decide _) as [|Hne]; [discriminate|].
  intros [= <- <-]. split_and!; try done.
  intros ->. cbn in Hlen. lia.
Qed.

Section NuisanceEstMore.
Context {L : Type} `{Learner L} `{Env}.

Lemma nuisance_est_ok_data smpls n_jobs_cv return_models
    (self self' : DoubleMLPQ L) psi preds :
  _nuisance_est smpls n_jobs_cv return_models self = (Ok (psi, preds), self') →
  length (x (_dml_data self)) = length (y (_dml_data self)) ∧
  length (d (_dml_data self)) = length (y (_dml_data self)) ∧
  y (_dml_data self) ≠ [] ∧
  ∃ gh mh mt,
    for_each (seq 0 (n_folds self))
      (nuisance_fold smpls (x (_dml_data self)) (y (_dml_data self))
         (d (_dml_data self)))
      (np_full (n_obs (_dml_data self)) NaN,
       np_full (n_obs (_dml_data self)) NaN) self
    = (Ok (gh, mh), self') ∧
    final_propensity self' mh = Ok mt ∧
    psi = {| ind_d := eq_treatment self' (d (_dml_data self)); g := gh;
             m := mt; psi_y := y (_dml_data self) |} ∧
    preds = {| preds_ml_g := gh; preds_ml_m := mt |}.
Proof.
  unfold _nuisance_est. intros Hrun.
  repeat peel Hrun.
  apply meth_bind_ok in Hrun as ([gh mh] & s1 & Hloop & Hrun).
  repeat peel Hrun.
  unfold mret, meth_ret in Hrun. injection Hrun as <- <- <-.
  apply check_X_y_ok in E as (-> & -> & Lxy & Hy).
  apply check_X_y_ok in E0 as (-> & -> & Lxd & Hd).
  split_and!; [done|congruence|done|]. eauto 10.
Qed.

(** Every fold of a loop that returns has found its pair in the split. *)
Lemma nuisance_loop_folds smpls x y d k :
  ∀ a acc s acc' s',
    for_each (seq a k) (nuisance_fold smpls x y d) acc s = (Ok acc', s') →
    (0 < k)%nat → (a + k ≤ length smpls)%nat.
Proof.
  induction k as [|k IH]; intros a acc s acc' s'; cbn; [lia|].
  intros Hloop _.
  apply meth_bind_ok in Hloop as ([g1 m1] & s1 & Hfold & Hloop).
  destruct acc as [gh mh].
  apply nuisance_fold_ok in Hfold as (train & test & _ & _ & Hlook & _).
  apply lookup_lt_Some in Hlook.
  destruct k as [|k]; [lia|].
  apply IH in Hloop; lia.
Qed.

Lemma for_each_ext {A S} (l : list A) (body1 body2 : A → S → meth L S) :
  (∀ a acc s, a ∈ l → body1 a acc s = body2 a acc s) →
  ∀ acc s, for_each l body1 acc s = for_each l body2 acc s.
Proof.
  induction l as [|a l IH]; intros Hext acc s; cbn; [done|].
  unfold mbind, meth_bind.
  rewrite Hext by (by left).
  destruct (body2 a acc s) as [[acc1|e] s1]; [|done].
  apply IH. intros b acc2 s2 Hb. apply Hext. by right.
Qed.

Lemma nuisance_fold_app smpls extra x y d i hats s :
  (i < length smpls)%nat →
  nuisance_fold (smpls ++ extra) x y d i hats s
  = nuisance_fold smpls x y d i hats s.
Proof.
  intros Hi. destruct hats. unfold nuisance_fold, py_index.
  by rewrite lookup_app_l.
Qed.
End NuisanceEstMore.

(** X16.  The bundle [_nuisance_est] returns is one the score accepts: its
    four arrays have length [n_obs], [ind_d] is [d == treatment] and [y] is
    the outcome of the data, so the score evaluated on it returns an array
    of length [n_obs]. *)
Theorem nuisance_est_bundle_well_formed {L} `{Learner L} `{Env}
    (self self' : DoubleMLPQ L) (smpls : list (list nat * list nat))
    (n_jobs_cv : option Z) (return_models : bool)
    (psi : psi_elements) (preds : preds_t) :
  _nuisance_est smpls n_jobs_cv return_models self = (Ok (psi, preds), self') →
  bundle_of_length (n_obs (_dml_data self)) psi
  ∧ ind_d psi = map (λ di, bool_decide (di = _treatment self))
                  (d (_dml_data self))
  ∧ psi_y psi = y (_dml_data self)
  ∧ ∀ theta, ∃ s, _compute_score self' psi theta None = Ok s ∧
      length s = n_obs (_dml_data self).
Proof.
  intros Hrun.
  apply nuisance_est_ok_data in Hrun
    as (Lx & Ld & Hne & gh & mh & mt & Hloop & Hfinal & -> & ->).
  apply nuisance_loop_fill in Hloop as (Lg & Lm & Hcfg & _).
  apply final_propensity_lookup in Hfinal as [Lt _].
  unfold np_full in *. rewrite length_replicate in Lg, Lm.
  destruct Hcfg as (_ & _ & _ & _ & Htr & _).
  assert (bundle_of_length (n_obs (_dml_data self))
            {| ind_d := eq_treatment self' (d (_dml_data self)); g := gh;
               m := mt; psi_y := y (_dml_data self) |}) as Hb.
  { unfold bundle_of_length, eq_treatment, n_obs in *. cbn.
    rewrite length_map. split_and!; congruence. }
  split_and!; [done| |done|].
  - cbn. unfold eq_treatment. by rewrite Htr.
  - intros theta. destruct Hb as (B1 & B2 & B3 & B4). eexists. split.
    + apply compute_score_selected with (inds := None); cbn;
        (reflexivity || (cbn in *; lia)).
    + unfold astype_float, le_coef. cbn in *.
      rewrite length_map, !length_zip_with, !length_map. lia.
Qed.

Lemma nuisance_est_bundle_well_formed_witness :
  bundle_of_length (n_obs (_dml_data (pq4 false))) (result4 false).1
  ∧ ind_d (result4 false).1
    = map (λ di, bool_decide (di = _treatment (pq4 false)))
        (d (_dml_data (pq4 false)))
  ∧ psi_y (result4 false).1 = y (_dml_data (pq4 false))
  ∧ ∀ theta, ∃ s,
      _compute_score (pq4_after false) (result4 false).1 theta None = Ok s ∧
      length s = n_obs (_dml_data (pq4 false)).
Proof.
  apply (nuisance_est_bundle_well_formed (H0 := simple_env) (pq4 false)
           (pq4_after false) smpls4 None false (result4 false).1
           (result4 false).2).
  apply (nuisance_est_data4 false).
Defined.

(** X17.  With the rule 'truncate' and a threshold [tau] in (0, 0.5), every
    entry of the returned [m] that is a number lies in [[tau, 1 - tau]]; in
    particular it is not zero. *)
Theorem nuisance_est_propensities_trimmed {L} `{Learner L} `{Env}
    (self self' : DoubleMLPQ L) (smpls : list (list nat * list nat))
    (n_jobs_cv : option Z) (return_models : bool)
    (psi : psi_elements) (preds : preds_t) :
  _nuisance_est smpls n_jobs_cv return_models self = (Ok (psi, preds), self') →
  _trimming_rule self = truncate →
  0 < _trimming_threshold self < 1 / 2 →
  ∀ i r, m psi !! i = Some (Fin r) →
    _trimming_threshold self <= r <= 1 - _trimming_threshold self ∧ r ≠ 0.
Proof.
  intros Hrun Hrule Htau i r Hi.
  pose proof (frames_nuisance_est _ _ _ _ _ _ Hrun)
    as (_ & _ & _ & _ & _ & _ & _ & Hr & Ht & _).
  apply nuisance_est_ok_data in Hrun
    as (_ & _ & _ & gh & mh & mt & _ & Hfinal & -> & ->).
  unfold final_propensity in Hfinal. rewrite Hr, Ht, Hrule in Hfinal.
  rewrite trimm_truncate in Hfinal by done. injection Hfinal as <-.
  cbn in Hi. change (@map) with (@fmap list _) in Hi.
  rewrite list_lookup_fmap in Hi.
  destruct (_ !! i) as [[|u]|] eqn:Hu; cbn in Hi; try discriminate.
  destruct (clip_range (_trimming_threshold self) Htau u) as (r' & Hr' & Hin).
  rewrite Hr' in Hi. injection Hi as <-. split; [done|lra].
Qed.

Lemma nuisance_est_propensities_trimmed_witness :
  _trimming_threshold (pq4 false) <= 3 / 4
  <= 1 - _trimming_threshold (pq4 false)
  ∧ 3 / 4 ≠ 0.
Proof.
  apply (nuisance_est_propensities_trimmed (H0 := simple_env) (pq4 false)
           (pq4_after false) smpls4 None false (result4 false).1
           (result4 false).2) with (i := 0%nat).
  - apply (nuisance_est_data4 false).
  - reflexivity.
  - cbn. lra.
  - reflexivity.
Defined.

(** X18.  [_nuisance_est] returns only when the split has at least
    [n_folds] folds: with fewer folds it raises. *)
Theorem nuisance_est_needs_n_folds {L} `{Learner L} `{Env}
    (self self' : DoubleMLPQ L) (smpls : list (list nat * list nat))
    (n_jobs_cv : option Z) (return_models : bool)
    (res : psi_elements * preds_t) :
  _nuisance_est smpls n_jobs_cv return_models self = (Ok res, self') →
  (n_folds self ≤ length smpls)%nat.
Proof.
  intros Hrun. destruct res as [psi preds].
  apply nuisance_est_ok in Hrun
    as (x' & y' & d' & gh & mh & mt & Hloop & _).
  destruct (n_folds self) as [|k] eqn:Hk; [lia|].
  apply nuisance_loop_folds in Hloop; lia.
Qed.

Lemma nuisance_est_needs_n_folds_witness :
  (n_folds (pq4 false) ≤ length smpls4)%nat.
Proof.
  apply (nuisance_est_needs_n_folds (H0 := simple_env) (pq4 false)
           (pq4_after false) smpls4 None false (result4 false)).
  apply (nuisance_est_data4 false).
Defined.

(** X19.  Folds of the split beyond the first [n_folds] are never used:
    appending folds to a split that has [n_folds] folds changes neither
    the result nor the object after the call. *)
Theorem nuisance_est_ignores_further_folds {L} `{Learner L} `{Env}
    (self : DoubleMLPQ L) (smpls extra : list (list nat * list nat))
    (n_jobs_cv : option Z) (return_models : bool) :
  (n_folds self ≤ length smpls)%nat →
  _nuisance_est (smpls ++ extra) n_jobs_cv return_models self
  = _nuisance_est smpls n_jobs_cv return_models self.
Proof.
  intros Hk. unfold _nuisance_est, mbind, meth_bind, get_self, lift_result.
  destruct (check_X_y _ _) as [[x' y']|e]; [|done].
  destruct (check_X_y _ _) as [[x'' d']|e]; [|done].
  rewrite (for_each_ext _ _ (nuisance_fold smpls x'' y' d')); [done|].
  intros i acc s Hi. apply nuisance_fold_app.
  apply elem_of_seq in Hi. lia.
Qed.

Lemma nuisance_est_ignores_further_folds_witness :
  _nuisance_est (H0 := simple_env) (smpls4 ++ [([0; 1; 2], [3])]%nat)
    None false (pq4 false)
  = _nuisance_est (H0 := simple_env) smpls4 None false (pq4 false).
Proof.
  apply (nuisance_est_ignores_further_folds (H0 := simple_env) (pq4 false)
           smpls4 [([0; 1; 2], [3])]%nat None false).
  cbn. lia.
Defined.

(** X20.  The learners stored after [_nuisance_est] are the learners
    stored before, fitted once per fold: there are [n_folds] successive
    learner objects for [ml_g] and for [ml_m], each the result of [fit] on
    the one before, the first fit being on the stored object and the last
    result being what is stored after the call. *)
Theorem nuisance_est_learner_chain {L} `{Learner L} `{Env}
    (self self' : DoubleMLPQ L) (smpls : list (list nat * list nat))
    (n_jobs_cv : option Z) (return_models : bool)
    (res : psi_elements * preds_t) :
  _nuisance_est smpls n_jobs_cv return_models self = (Ok res, self') →
  ∃ gs ms : list L,
    length gs = n_folds self ∧ length ms = n_folds self ∧
    last (_learner_ml_g self :: gs) = Some (_learner_ml_g self') ∧
    last (_learner_ml_m self :: ms) = Some (_learner_ml_m self') ∧
    (∀ i l l', (_learner_ml_g self :: gs) !! i = Some l →
       gs !! i = Some l' → ∃ X labels, fit l X labels = Ok l') ∧
    (∀ i l l', (_learner_ml_m self :: ms) !! i = Some l →
       ms !! i = Some l' → ∃ X labels, fit l X labels = Ok l').
Proof.
  intros Hrun. destruct res as [psi preds].
  apply nuisance_est_ok in Hrun
    as (x' & y' & d' & gh & mh & mt & Hloop & _).
  by apply nuisance_loop_learners in Hloop.
Qed.

Lemma nuisance_est_learner_chain_witness :
  ∃ gs ms : list freq_learner,
    length gs = n_folds (pq4 true) ∧ length ms = n_folds (pq4 true) ∧
    last (_learner_ml_g (pq4 true) :: gs)
    = Some (_learner_ml_g (pq4_after true)) ∧
    last (_learner_ml_m (pq4 true) :: ms)
    = Some (_learner_ml_m (pq4_after true)) ∧
    (∀ i l l', (_learner_ml_g (pq4 true) :: gs) !! i = Some l →
       gs !! i = Some l' → ∃ X labels, fit l X labels = Ok l') ∧
    (∀ i l l', (_learner_ml_m (pq4 true) :: ms) !! i = Some l →
       ms !! i = Some l' → ∃ X labels, fit l X labels = Ok l').
Proof.
  apply (nuisance_est_learner_chain (H0 := simple_env) (pq4 true)
           (pq4_after true) smpls4 None false (result4 true)).
  apply (nuisance_est_data4 true).
Defined.
